(** * Portfolio analysis and optimisation script: model and properties

    A shallow embedding of [src/python/portfolio_optimizer.py].

    Conventions of the model.
    - A Python float is kept as the exact value of the binary64 number
      ([Qc], canonical fractions with Leibniz equality), and every
      arithmetic operation rounds its exact result to the nearest
      binary64 number, ties to even ([Py.fl]).  [round(x, 2)] and
      [f"{x:.1f}"] round the exact value of the float to the nearest
      decimal, ties to even, as the built-in [float] does; the numbers
      the libraries hand over are taken as such floats.  Powers come from
      the C library and are a field of the [World].  NaN, the infinities
      (overflow) and the sign of zero are not represented.
    - Python dicts are association lists in insertion order (the order is
      observable in the JSON output and in the recommendation list).
    - The market-data provider, the clock, pandas' statistics and the
      mean-variance optimiser are collaborators outside the repository:
      they are the fields of a [World].
    - Effects (standard output, [sys.exit], exceptions, the clock and the
      provider calls) are threaded through a state-and-exception monad. *)

From Stdlib Require Import Ascii QArith Qcanon Qround Lqa.
From stdpp Require Import base numbers list strings pretty.

(** ** Python built-ins *)

Module Py.

(** Exceptions the script can meet, each with its message.
    [SystemExit] is not an [Exception] in Python and is modelled apart
    (see [outcome]). *)
Inductive exn :=
| IndexError (msg : string)
| ValueError (msg : string)
| ZeroDivisionError (msg : string)
| LibraryError (msg : string).

(** [str(e)] *)
Definition str_exn (e : exn) : string :=
  match e with
  | IndexError msg | ValueError msg | ZeroDivisionError msg
  | LibraryError msg => msg
  end.

(** Pure code that may raise. *)
Inductive res (A : Type) :=
| Ok (a : A)
| Err (e : exn).
Arguments Ok {A} a.
Arguments Err {A} e.

#[global] Instance res_ret : MRet res := λ A a, Ok a.
#[global] Instance res_bind : MBind res := λ A B f m,
  match m with
  | Ok a => f a
  | Err e => Err e
  end.

(** Nearest integer, ties to even. *)
Definition round_half_even (x : Q) : Z :=
  let f := Qfloor x in
  match (x - inject_Z f ?= 1 # 2)%Q with
  | Lt => f
  | Gt => (f + 1)%Z
  | Eq => if Z.even f then f else (f + 1)%Z
  end.

(** Binary64 numbers.  [ilog2 n d] is the floor of the base-2 logarithm
    of the fraction [n / d], for a positive [n]. *)
Definition ilog2 (n : Z) (d : positive) : Z :=
  let t := (Z.log2 n - Z.log2 (Z.pos d))%Z in
  if (0 <=? t)%Z
  then (if (Z.pos d * 2 ^ t <=? n)%Z then t else t - 1)%Z
  else (if (Z.pos d <=? n * 2 ^ (- t))%Z then t else t - 1)%Z.

(** [q * 2 ^ e] *)
Definition scale (q : Q) (e : Z) : Q :=
  if (0 <=? e)%Z then (Qnum q * 2 ^ e # Qden q)
  else (Qnum q # Qden q * Z.to_pos (2 ^ (- e))).

(** The exponent of the last bit of the 53-bit significand that holds
    [q]; below [2 ^ -1022] the numbers are subnormal and the last bit
    stays at [2 ^ -1074]. *)
Definition exponent (q : Q) : Z :=
  Z.max (ilog2 (Z.abs (Qnum q)) (Qden q) - 52) (-1074).

(** The binary64 number nearest to [q], ties to even. *)
Definition fl (q : Q) : Qc :=
  if (Qnum q =? 0)%Z then 0%Qc
  else
    let e := exponent q in
    Q2Qc (scale (inject_Z (round_half_even (scale q (- e)))) e).
Arguments fl : simpl never.

(** Numbers: an int (exact up to [2 ^ 53]), and a decimal literal such
    as [0.05], which denotes the nearest binary64 number. *)
Definition of_Z (n : Z) : Qc := Qc_of_Z n.
Definition of_nat (n : nat) : Qc := Qc_of_Z (Z.of_nat n).
Definition dec (n : Z) (d : positive) : Qc := fl (n # d).
Arguments dec : simpl never.

(** [x + y], [x - y], [x * y] and [x / y] on floats ([y] is never zero
    where the script divides floats). *)
Definition add (x y : Qc) : Qc := fl (x + y)%Q.
Definition sub (x y : Qc) : Qc := fl (x - y)%Q.
Definition mul (x y : Qc) : Qc := fl (x * y)%Q.
Definition div (x y : Qc) : Qc := fl (x / y)%Q.
Arguments add : simpl never.
Arguments sub : simpl never.
Arguments mul : simpl never.
Arguments div : simpl never.

Definition gtb (x y : Qc) : bool := bool_decide (y < x)%Qc.
Definition ltb (x y : Qc) : bool := bool_decide (x < y)%Qc.

(** [round(x, 2)]: the float nearest to the exact value of [x] rounded
    to two decimals. *)
Definition round2 (x : Qc) : Qc :=
  fl (round_half_even (x * 100)%Q # 100).
Arguments round2 : simpl never.

(** [n / d] on two ints: true division, the float nearest to the exact
    quotient. *)
Definition ratio (n d : nat) : Qc := fl (Z.of_nat n # Pos.of_nat d).
Arguments ratio : simpl never.

Definition int_div (n d : nat) : res Qc :=
  if decide (d = 0%nat) then Err (ZeroDivisionError "division by zero")
  else Ok (ratio n d).

(** [max(xs)] *)
Definition max (xs : list Qc) : res Qc :=
  match xs with
  | [] => Err (ValueError "max() arg is an empty sequence")
  | x :: xs => Ok (foldl (λ m y, if gtb y m then y else m) x xs)
  end.

(** [l[i]] *)
Definition index {A} (l : list A) (i : nat) : res A :=
  match l !! i with
  | Some a => Ok a
  | None => Err (IndexError "list index out of range")
  end.

(** [s.split(sep)] for a one-character separator: the pieces between the
    separators, so never the empty list. *)
Fixpoint split_aux (sep : ascii) (s : string) (cur : string) : list string :=
  match s with
  | EmptyString => [String.rev cur]
  | String c s' =>
      if Ascii.eqb c sep then String.rev cur :: split_aux sep s' EmptyString
      else split_aux sep s' (String c cur)
  end.

Definition split (sep : ascii) (s : string) : list string :=
  split_aux sep s EmptyString.
Arguments split : simpl never.

(** [f"{x:.1f}"]: the exact value of the float to one decimal, with
    the sign of [x] (also where the digits are all zero). *)
Definition format_1f (negative : bool) (x : Qc) : string :=
  let t := Z.abs (round_half_even (x * 10)%Q) in
  (if negative then "-" else "") +:+
  pretty (t / 10)%Z +:+ "." +:+ pretty (t mod 10)%Z.

(** [f"{x*100:.1f}"]: the float product, then its one decimal. *)
Definition percent_1f (x : Qc) : string :=
  format_1f (bool_decide (x < 0)%Qc) (mul x (of_Z 100)).

(** Dicts: association lists in insertion order, keys unique. *)
Definition dict (V : Type) : Type := list (string * V).

Definition keys {V} (d : dict V) : list string := d.*1.
Definition values {V} (d : dict V) : list V := d.*2.

Fixpoint get {V} (d : dict V) (k : string) : option V :=
  match d with
  | [] => None
  | (k', v) :: d' => if String.eqb k' k then Some v else get d' k
  end.

(** [d[k] = v]: overwrite in place, or append a new key. *)
Fixpoint set {V} (d : dict V) (k : string) (v : V) : dict V :=
  match d with
  | [] => [(k, v)]
  | (k', v') :: d' =>
      if String.eqb k' k then (k', v) :: d' else (k', v') :: set d' k v
  end.

(** JSON values, as [json.dumps] serialises them. *)
#[warnings="-register-all"]
Inductive json :=
| JNull
| JNum (x : Qc)
| JStr (s : string)
| JList (l : list json)
| JObj (fields : list (string * json)).

Definition is_object (j : json) : bool :=
  match j with
  | JObj _ => true
  | _ => false
  end.

Definition has_field (k : string) (j : json) : bool :=
  match j with
  | JObj fields => bool_decide (is_Some (get fields k))
  | _ => false
  end.

Definition json_opt_str (o : option string) : json :=
  match o with
  | Some s => JStr s
  | None => JNull
  end.

End Py.

(** ** Calendar dates

    A [datetime] is kept as the proleptic Gregorian ordinal of its day
    (day 1 is 0001-01-01, as [date.toordinal]); the time of day is not
    observed by the script, which only formats dates. *)

Module Datetime.

Definition datetime : Type := Z.

(** [dt - timedelta(days=n)] *)
Definition minus_days (dt : datetime) (n : Z) : datetime := (dt - n)%Z.

Definition ymd_of_ordinal (n : Z) : Z * Z * Z :=
  let z := (n + 305)%Z in
  let era := (z / 146097)%Z in
  let doe := (z mod 146097)%Z in
  let yoe := ((doe - doe / 1460 + doe / 36524 - doe / 146096) / 365)%Z in
  let doy := (doe - (365 * yoe + yoe / 4 - yoe / 100))%Z in
  let mp := ((5 * doy + 2) / 153)%Z in
  let d := (doy - (153 * mp + 2) / 5 + 1)%Z in
  let m := (if (mp <? 10)%Z then mp + 3 else mp - 9)%Z in
  let y := (yoe + era * 400 + (if (m <=? 2)%Z then 1 else 0))%Z in
  (y, m, d).

Definition pad (width : nat) (n : Z) : string :=
  let s := pretty n in
  String.string_of_list_ascii (replicate (width - String.length s) "0"%char) +:+ s.

(** [dt.strftime("%Y-%m-%d")] *)
Definition strftime_ymd (dt : datetime) : string :=
  let '(y, m, d) := ymd_of_ordinal dt in
  pad 4 y +:+ "-" +:+ pad 2 m +:+ "-" +:+ pad 2 d.
Arguments strftime_ymd : simpl never.

End Datetime.

(** ** Price tables *)

Module Pandas.

(** A table of adjusted closes: the row labels (dates) and one named
    column per ticker; [None] is NaN (a missing price). *)
Record DataFrame := {
  index : list string;
  columns : list (string * list (option Qc))
}.

(** [df.empty]: some axis has length 0. *)
Definition empty (df : DataFrame) : bool :=
  bool_decide (index df = []) || bool_decide (columns df = []).

(** [ticker in df.columns] and [df[ticker]] together. *)
Definition column (df : DataFrame) (ticker : string) : option (list (option Qc)) :=
  Py.get (columns df) ticker.

(** [series.dropna()] *)
Definition dropna (s : list (option Qc)) : list Qc := omap id s.

(** [series.iloc[-1]] *)
Definition iloc_last (s : list Qc) : Py.res Qc :=
  match last s with
  | Some x => Py.Ok x
  | None => Py.Err (Py.IndexError "single positional indexer is out-of-bounds")
  end.

End Pandas.

(** ** The world outside the script *)

Definition Series : Type := Py.dict Qc.
Definition Matrix : Type := list (list Qc).

(** One provider request: tickers, start and end. *)
Definition fetch_call : Type := list string * option string * option string.

Record World := {
  (** [datetime.now()]: the day read at the k-th reading of the clock. *)
  now : nat → Datetime.datetime;
  (** [yf.download(tickers, start, end, progress=False)['Adj Close']] at
      the k-th request: the message of the exception raised, or a table. *)
  download : nat → fetch_call → string + Pandas.DataFrame;
  (** [expected_returns.mean_historical_return] *)
  mean_historical_return : Pandas.DataFrame → Py.res Series;
  (** [risk_models.sample_cov] *)
  sample_cov : Pandas.DataFrame → Py.res Matrix;
  (** [EfficientFrontier(mu, S).max_sharpe()]: the raw weight vector. *)
  max_sharpe : Series → Matrix → Py.res (list Qc);
  (** [ef.clean_weights()]: the weights as an ordered ticker mapping. *)
  clean_weights : Series → list Qc → Py.dict Qc;
  (** [ef.portfolio_performance(verbose=False)]:
      expected return, volatility, Sharpe ratio. *)
  portfolio_performance : Series → Matrix → list Qc → Py.res (Qc * Qc * Qc);
  (** [series.pct_change()], [series.mean()], [series.std()] *)
  pct_change : list Qc → list (option Qc);
  mean : list Qc → Qc;
  std : list Qc → Qc;
  (** [252 ** 0.5] *)
  sqrt_252 : Qc;
  (** [x ** n] for a float [x] and an int [n]: the [pow] of the C
      library, which is close to the exact power but not always the
      nearest float to it. *)
  pow : Qc → Z → Qc;
  (** [float(s)]: [None] is a [ValueError]. *)
  float : string → option Qc
}.

(** ** Effects *)

Record state := {
  clock_reads : nat;
  fetch_log : list fetch_call;
  stdout : list Py.json
}.

Definition initial : state :=
  {| clock_reads := 0; fetch_log := []; stdout := [] |}.

(** How a computation leaves: with a value, with an exception that
    propagates, or with [sys.exit(code)]. *)
Inductive outcome (A : Type) :=
| Ret (a : A)
| Raise (e : Py.exn)
| SysExit (code : Z).
Arguments Ret {A} a.
Arguments Raise {A} e.
Arguments SysExit {A} code.

Definition M (A : Type) : Type := state → outcome A * state.

#[global] Instance M_ret : MRet M := λ A a s, (Ret a, s).
#[global] Instance M_bind : MBind M := λ A B f m s,
  match m s with
  | (Ret a, s') => f a s'
  | (Raise e, s') => (Raise e, s')
  | (SysExit c, s') => (SysExit c, s')
  end.

Definition lift {A} (r : Py.res A) : M A := λ s,
  match r with
  | Py.Ok a => (Ret a, s)
  | Py.Err e => (Raise e, s)
  end.

(** [sys.exit(code)] *)
Definition sys_exit {A} (code : Z) : M A := λ s, (SysExit code, s).

(** [print(json.dumps(j))] *)
Definition written (j : Py.json) (s : state) : state :=
  {| clock_reads := clock_reads s;
     fetch_log := fetch_log s;
     stdout := stdout s ++ [j] |}.

Definition print (j : Py.json) : M unit := λ s, (Ret (), written j s).

(** [try: body  except Exception as e: handler(e)] *)
Definition try_except {A} (body : M A) (handler : Py.exn → M A) : M A := λ s,
  match body s with
  | (Raise e, s') => handler e s'
  | r => r
  end.

(** [datetime.now()] *)
Definition ticked (s : state) : state :=
  {| clock_reads := S (clock_reads s);
     fetch_log := fetch_log s;
     stdout := stdout s |}.

Definition datetime_now (w : World) : M Datetime.datetime := λ s,
  (Ret (now w (clock_reads s)), ticked s).

(** The provider request; it may raise. *)
Definition requested (call : fetch_call) (s : state) : state :=
  {| clock_reads := clock_reads s;
     fetch_log := fetch_log s ++ [call];
     stdout := stdout s |}.

Definition yf_download (w : World) (tickers : list string)
    (start end_ : option string) : M Pandas.DataFrame := λ s,
  let call := (tickers, start, end_) in
  match download w (length (fetch_log s)) call with
  | inr data => (Ret data, requested call s)
  | inl msg => (Raise (Py.LibraryError msg), requested call s)
  end.

(** ** Result records *)

Record period := {
  start : option string;
  end_ : option string
}.

Record optimization := {
  optimal_weights : Py.dict Qc;
  expected_annual_return : Qc;
  annual_volatility : Qc;
  sharpe_ratio : Qc;
  tickers : list string;
  analysis_period : period
}.

Record analysis := {
  current_price : Qc;
  avg_return : Qc;
  volatility : Qc;
  optimal_weight : Qc;
  recommended_allocation : Qc
}.

Record projections := {
  initial_investment : Qc;
  projected_1year : Qc;
  projected_3year : Qc;
  projected_5year : Qc;
  gain_1year : Qc;
  gain_3year : Qc;
  gain_5year : Qc
}.

Record assessment := {
  risk_level : string;
  diversification_score : Qc
}.

Record prediction := {
  portfolio_optimization : optimization;
  stock_analysis : Py.dict analysis;
  investment_projections : projections;
  risk_assessment : assessment;
  recommendations : list string
}.

(** What the two entry points return: the dict [{"error": msg}] or the
    dict of results. *)
Inductive result (A : Type) :=
| ErrorRecord (error : string)
| Success (r : A).
Arguments ErrorRecord {A} error.
Arguments Success {A} r.

(** ["error" in r] *)
Definition has_error {A} (r : result A) : bool :=
  match r with
  | ErrorRecord _ => true
  | Success _ => false
  end.

(** ** JSON encodings of the result records *)

Definition json_of_weights (d : Py.dict Qc) : Py.json :=
  Py.JObj (prod_map id Py.JNum <$> d).

Definition json_of_optimization (o : optimization) : Py.json :=
  Py.JObj
    [("optimal_weights", json_of_weights (optimal_weights o));
     ("expected_annual_return", Py.JNum (expected_annual_return o));
     ("annual_volatility", Py.JNum (annual_volatility o));
     ("sharpe_ratio", Py.JNum (sharpe_ratio o));
     ("tickers", Py.JList (Py.JStr <$> tickers o));
     ("analysis_period",
      Py.JObj [("start", Py.json_opt_str (start (analysis_period o)));
               ("end", Py.json_opt_str (end_ (analysis_period o)))])].

Definition json_of_analysis (a : analysis) : Py.json :=
  Py.JObj
    [("current_price", Py.JNum (current_price a));
     ("avg_return", Py.JNum (avg_return a));
     ("volatility", Py.JNum (volatility a));
     ("optimal_weight", Py.JNum (optimal_weight a));
     ("recommended_allocation", Py.JNum (recommended_allocation a))].

Definition json_of_projections (p : projections) : Py.json :=
  Py.JObj
    [("initial_investment", Py.JNum (initial_investment p));
     ("projected_1year", Py.JNum (projected_1year p));
     ("projected_3year", Py.JNum (projected_3year p));
     ("projected_5year", Py.JNum (projected_5year p));
     ("gain_1year", Py.JNum (gain_1year p));
     ("gain_3year", Py.JNum (gain_3year p));
     ("gain_5year", Py.JNum (gain_5year p))].

Definition json_of_prediction (p : prediction) : Py.json :=
  Py.JObj
    [("portfolio_optimization", json_of_optimization (portfolio_optimization p));
     ("stock_analysis",
      Py.JObj (prod_map id json_of_analysis <$> stock_analysis p));
     ("investment_projections", json_of_projections (investment_projections p));
     ("risk_assessment",
      Py.JObj [("risk_level", Py.JStr (risk_level (risk_assessment p)));
               ("diversification_score",
                Py.JNum (diversification_score (risk_assessment p)))]);
     ("recommendations", Py.JList (Py.JStr <$> recommendations p))].

Definition json_of_result {A} (enc : A → Py.json) (r : result A) : Py.json :=
  match r with
  | ErrorRecord msg => Py.JObj [("error", Py.JStr msg)]
  | Success a => enc a
  end.

(** ** The script *)

Definition error_object (msg : string) : Py.json :=
  Py.JObj [("error", Py.JStr msg)].

(** [fetch_portfolio_data] (lines 14-21): the provider's table, or the
    error object on standard output and exit status 1. *)
Definition fetch_portfolio_data (w : World) (tickers : list string)
    (start_date end_date : option string) : M Pandas.DataFrame :=
  try_except
    (yf_download w tickers start_date end_date)
    (λ e, print (error_object ("Failed to fetch data: " +:+ Py.str_exn e));;
          sys_exit 1).

(** [not start_date]: [None] and the empty string are false. *)
Definition falsy (s : option string) : bool :=
  match s with
  | None => true
  | Some s => bool_decide (s = "")
  end.

(** Lines 28-30 of [optimize_portfolio]: without a start date, the two
    years up to today; the clock is read once for each end. *)
Definition default_period (w : World) (start_date end_date : option string)
    : M (option string * option string) :=
  if falsy start_date then
    t ← datetime_now w;
    let end_date := Some (Datetime.strftime_ymd t) in
    t' ← datetime_now w;
    let start_date := Some (Datetime.strftime_ymd (Datetime.minus_days t' 730)) in
    mret (start_date, end_date)
  else mret (start_date, end_date).

(** [optimize_portfolio] (lines 23-62). *)
Definition optimize_portfolio (w : World) (tickers : list string)
    (start_date end_date : option string) : M (result optimization) :=
  '(start_date, end_date) ← default_period w start_date end_date;
  data ← fetch_portfolio_data w tickers start_date end_date;
  if Pandas.empty data then
    mret (ErrorRecord "No data available for the given tickers")
  else
    mu ← lift (mean_historical_return w data);
    S ← lift (sample_cov w data);
    weights ← lift (max_sharpe w mu S);
    let cleaned_weights := clean_weights w mu weights in
    performance ← lift (portfolio_performance w mu S weights);
    mret (Success
      {| optimal_weights := cleaned_weights;
         expected_annual_return :=
           Py.round2 (Py.mul performance.1.1 (Py.of_Z 100));
         annual_volatility :=
           Py.round2 (Py.mul performance.1.2 (Py.of_Z 100));
         sharpe_ratio := Py.round2 performance.2;
         tickers := tickers;
         analysis_period := {| start := start_date; end_ := end_date |} |}).

(** The loop of lines 81-93: one entry per requested ticker that is a
    column of the table. *)
Fixpoint stock_analysis_loop (w : World) (data : Pandas.DataFrame)
    (optimization : optimization) (investment_amount : Qc)
    (tickers : list string) (stock_analysis : Py.dict analysis)
    : Py.res (Py.dict analysis) :=
  match tickers with
  | [] => Py.Ok stock_analysis
  | ticker :: rest =>
      match Pandas.column data ticker with
      | Some col =>
          let stock_data := Pandas.dropna col in
          let returns := Pandas.dropna (pct_change w stock_data) in
          price ← Pandas.iloc_last stock_data;
          let weight := default 0%Qc (Py.get (optimal_weights optimization) ticker) in
          stock_analysis_loop w data optimization investment_amount rest
            (Py.set stock_analysis ticker
               {| current_price := Py.round2 price;
                  avg_return :=
                    Py.round2
                      (Py.mul (Py.mul (mean w returns) (Py.of_Z 252))
                         (Py.of_Z 100));
                  volatility :=
                    Py.round2
                      (Py.mul (Py.mul (std w returns) (sqrt_252 w))
                         (Py.of_Z 100));
                  optimal_weight := weight;
                  recommended_allocation :=
                    Py.round2 (Py.mul investment_amount weight) |})
      | None =>
          stock_analysis_loop w data optimization investment_amount rest
            stock_analysis
      end
  end.

(** Line 114. *)
Definition risk_level_of (annual_volatility : Qc) : string :=
  if Py.gtb annual_volatility (Py.of_Z 25) then "High"
  else if Py.gtb annual_volatility (Py.of_Z 15) then "Medium"
  else "Low".

(** Line 115. *)
Definition diversification_score_of (optimal_weights : Py.dict Qc)
    (tickers : list string) : Py.res Qc :=
  share ← Py.int_div
    (length (filter (λ w, Py.gtb w (Py.dec 5 100) = true) (Py.values optimal_weights)))
    (length tickers);
  mret (Py.round2 (Py.mul share (Py.of_Z 100))).

(** The three Sharpe-ratio sentences of lines 128-133. *)
Definition sharpe_excellent : string :=
  "Excellent risk-adjusted returns. Strong portfolio allocation.".
Definition sharpe_good : string :=
  "Good risk-adjusted returns. Portfolio is well-balanced.".
Definition sharpe_poor : string :=
  "Consider diversifying to improve risk-adjusted returns.".

(** [generate_recommendations] (lines 122-155). *)
Definition generate_recommendations (optimization : optimization)
    (stock_analysis : Py.dict analysis) : Py.res (list string) :=
  let recommendations := [] in
  let sharpe := sharpe_ratio optimization in
  let recommendations :=
    if Py.gtb sharpe (Py.dec 15 10) then recommendations ++ [sharpe_excellent]
    else if Py.gtb sharpe (Py.of_Z 1) then recommendations ++ [sharpe_good]
    else recommendations ++ [sharpe_poor] in
  let volatility := annual_volatility optimization in
  let recommendations :=
    if Py.gtb volatility (Py.of_Z 25) then
      recommendations ++
        ["High volatility detected. Consider adding stable assets to reduce risk."]
    else if Py.ltb volatility (Py.of_Z 15) then
      recommendations ++
        ["Low volatility portfolio. Suitable for conservative investors."]
    else recommendations in
  let weights := optimal_weights optimization in
  max_weight ← Py.max (Py.values weights);
  let recommendations :=
    if Py.gtb max_weight (Py.dec 4 10) then
      recommendations ++
        ["Portfolio is concentrated in one asset (" +:+ Py.percent_1f max_weight
           +:+ "%). Consider diversifying."]
    else recommendations in
  mret (foldl
    (λ recommendations item,
       let '(ticker, analysis) := item in
       if Py.gtb (optimal_weight analysis) (Py.dec 3 10) then
         recommendations ++
           [ticker +:+ ": High allocation recommended ("
              +:+ Py.percent_1f (optimal_weight analysis)
              +:+ "%). Strong performer."]
       else if Py.ltb (optimal_weight analysis) (Py.dec 5 100) then
         recommendations ++
           [ticker +:+ ": Low allocation ("
              +:+ Py.percent_1f (optimal_weight analysis)
              +:+ "%). Consider alternatives."]
       else recommendations)
    recommendations stock_analysis).

(** [predict_portfolio_performance] (lines 64-120). *)
Definition predict_portfolio_performance (w : World) (tickers : list string)
    (investment_amount : Qc) : M (result prediction) :=
  t ← datetime_now w;
  let end_date := Some (Datetime.strftime_ymd t) in
  t' ← datetime_now w;
  let start_date := Some (Datetime.strftime_ymd (Datetime.minus_days t' 730)) in
  optimization ← optimize_portfolio w tickers start_date end_date;
  match optimization with
  | ErrorRecord msg => mret (ErrorRecord msg)
  | Success optimization =>
      data ← fetch_portfolio_data w tickers start_date end_date;
      stock_analysis ← lift
        (stock_analysis_loop w data optimization investment_amount tickers []);
      let expected_return := expected_annual_return optimization in
      let growth := Py.add (Py.of_Z 1) (Py.div expected_return (Py.of_Z 100)) in
      let projected_1year := Py.round2 (Py.mul investment_amount growth) in
      let projected_3year :=
        Py.round2 (Py.mul investment_amount (pow w growth 3)) in
      let projected_5year :=
        Py.round2 (Py.mul investment_amount (pow w growth 5)) in
      score ← lift
        (diversification_score_of (optimal_weights optimization) tickers);
      recommendations ← lift
        (generate_recommendations optimization stock_analysis);
      mret (Success
        {| portfolio_optimization := optimization;
           stock_analysis := stock_analysis;
           investment_projections :=
             {| initial_investment := investment_amount;
                projected_1year := projected_1year;
                projected_3year := projected_3year;
                projected_5year := projected_5year;
                gain_1year :=
                  Py.round2 (Py.sub projected_1year investment_amount);
                gain_3year :=
                  Py.round2 (Py.sub projected_3year investment_amount);
                gain_5year :=
                  Py.round2 (Py.sub projected_5year investment_amount) |};
           risk_assessment :=
             {| risk_level := risk_level_of (annual_volatility optimization);
                diversification_score := score |};
           recommendations := recommendations |})
  end.

(** The command line (lines 157-178); [argv] is [sys.argv], script name
    first. *)
Definition main (w : World) (argv : list string) : M unit :=
  if bool_decide (length argv < 2)%nat then
    print (error_object "No tickers provided");;
    sys_exit 1
  else
    command ← lift (Py.index argv 1);
    if bool_decide (command = "optimize") then
      arg ← lift (Py.index argv 2);
      let tickers := Py.split "," arg in
      result ← optimize_portfolio w tickers None None;
      print (json_of_result json_of_optimization result)
    else if bool_decide (command = "predict") then
      arg ← lift (Py.index argv 2);
      let tickers := Py.split "," arg in
      investment ←
        (if bool_decide (3 < length argv)%nat then
           amount ← lift (Py.index argv 3);
           match float w amount with
           | Some x => mret x
           | None =>
               lift (Py.Err (Py.ValueError
                 ("could not convert string to float: '" +:+ amount +:+ "'")))
           end
         else mret (Py.of_Z 10000));
      result ← predict_portfolio_performance w tickers investment;
      print (json_of_result json_of_prediction result)
    else
      print (error_object "Invalid command. Use 'optimize' or 'predict'");;
      sys_exit 1.

(** How the process ends: an exit status, or an exception nobody caught
    (the interpreter then writes a traceback to standard error and the
    status is 1). *)
Inductive termination :=
| Exited (code : Z)
| Uncaught (e : Py.exn).

Definition exit_code (t : termination) : Z :=
  match t with
  | Exited code => code
  | Uncaught _ => 1
  end.

(** Running the script: how it ends and what it wrote to standard output. *)
Definition run (w : World) (argv : list string) : termination * list Py.json :=
  match main w argv initial with
  | (Ret _, s) => (Exited 0, stdout s)
  | (SysExit code, s) => (Exited code, stdout s)
  | (Raise e, s) => (Uncaught e, stdout s)
  end.

(** ** A small world to run the script in

    Two listed tickers with three trading days of prices (one of them
    missing); any request that names neither gets an empty table, and a
    request for ticker [DOWN] fails at the provider.  The optimiser is a
    stub with fixed weights and a given performance, and powers are the
    exact ones, rounded. *)

Module Demo.

Definition today : Datetime.datetime := 739923%Z.

Definition prices : Pandas.DataFrame :=
  {| Pandas.index := ["2026-10-30"; "2026-11-02"; "2026-11-03"];
     Pandas.columns :=
       [("AAPL", [Some (Py.of_Z 100); Some (Py.of_Z 102); Some (Py.of_Z 101)]);
        ("MSFT", [Some (Py.of_Z 200); None; Some (Py.of_Z 210)])] |}.

Definition no_prices : Pandas.DataFrame :=
  {| Pandas.index := []; Pandas.columns := [] |}.

Definition listed (ticker : string) : bool :=
  bool_decide (ticker = "AAPL") || bool_decide (ticker = "MSFT").

Fixpoint changes (previous : Qc) (s : list Qc) : list (option Qc) :=
  match s with
  | [] => []
  | x :: s' => Some (Py.sub (Py.div x previous) (Py.of_Z 1)) :: changes x s'
  end.

Definition world (performance : Qc * Qc * Qc) : World :=
  {| now := λ _, today;
     download := λ _ call,
       if bool_decide ("DOWN" ∈ call.1.1) then inl "provider unreachable"
       else if existsb listed call.1.1 then inr prices
       else inr no_prices;
     mean_historical_return := λ _,
       Py.Ok [("AAPL", Py.dec 10 100); ("MSFT", Py.dec 15 100)];
     sample_cov := λ _,
       Py.Ok [[Py.dec 4 100; Py.dec 1 100]; [Py.dec 1 100; Py.dec 9 100]];
     max_sharpe := λ _ _, Py.Ok [Py.dec 6 10; Py.dec 4 10];
     clean_weights := λ mu weights, zip (Py.keys mu) weights;
     portfolio_performance := λ _ _ _, Py.Ok performance;
     pct_change := λ s,
       match s with
       | [] => []
       | x :: s' => None :: changes x s'
       end;
     mean := λ s, Py.div (foldl Py.add 0%Qc s) (Py.of_nat (length s));
     std := λ _, Py.dec 1 100;
     sqrt_252 := Py.dec 158745 10000;
     pow := λ x n, Py.fl (Qpower x n);
     float := λ s, if bool_decide (s = "5000") then Some (Py.of_Z 5000) else None |}.

(** An ordinary market and a turbulent one. *)
Definition market : World :=
  world (Py.dec 12345 100000, Py.dec 1825 10000, Py.dec 567 1000).
Definition turbulent : World :=
  world (Py.dec 30 100, Py.dec 35 100, Py.dec 8 10).

Definition script : string := "portfolio_optimizer.py".
Definition request : list string := ["AAPL"; "MSFT"; "ZZZZ"].

End Demo.

(** The three risk levels in increasing order. *)
Definition risk_rank (level : string) : nat :=
  if bool_decide (level = "High") then 2
  else if bool_decide (level = "Medium") then 1
  else 0.

(** What a step of the script may do to standard output: leave through
    [sys.exit(1)] after writing one error object, or write nothing. *)
Definition quiet_or_failed {A} (s : state) (r : outcome A) (s' : state) : Prop :=
  match r with
  | SysExit code => code = 1%Z ∧ ∃ msg, stdout s' = stdout s ++ [error_object msg]
  | _ => stdout s' = stdout s
  end.

(** The other sentences [generate_recommendations] can emit: the two
    volatility sentences (lines 138 and 140), the concentration sentence
    (line 146) and the two per-ticker sentences (lines 151 and 153). *)
Definition volatility_high : string :=
  "High volatility detected. Consider adding stable assets to reduce risk.".
Definition volatility_low : string :=
  "Low volatility portfolio. Suitable for conservative investors.".
Definition concentration_sentence (max_weight : Qc) : string :=
  "Portfolio is concentrated in one asset (" +:+ Py.percent_1f max_weight
    +:+ "%). Consider diversifying.".
Definition high_allocation_sentence (ticker : string) (weight : Qc) : string :=
  ticker +:+ ": High allocation recommended (" +:+ Py.percent_1f weight
    +:+ "%). Strong performer.".
Definition low_allocation_sentence (ticker : string) (weight : Qc) : string :=
  ticker +:+ ": Low allocation (" +:+ Py.percent_1f weight
    +:+ "%). Consider alternatives.".

(** ** Worlds with faults *)

Module Faults.

(** The demo market, with another provider or another solver. *)
Definition variant (download' : nat → fetch_call → string + Pandas.DataFrame)
    (max_sharpe' : Series → Matrix → Py.res (list Qc)) : World :=
  {| now := now Demo.market;
     download := download';
     mean_historical_return := mean_historical_return Demo.market;
     sample_cov := sample_cov Demo.market;
     max_sharpe := max_sharpe';
     clean_weights := clean_weights Demo.market;
     portfolio_performance := portfolio_performance Demo.market;
     pct_change := pct_change Demo.market;
     mean := mean Demo.market;
     std := std Demo.market;
     sqrt_252 := sqrt_252 Demo.market;
     pow := pow Demo.market;
     float := float Demo.market |}.

(** A solver that finds no portfolio. *)
Definition infeasible : World :=
  variant (download Demo.market)
    (λ _ _, Py.Err (Py.LibraryError "no asset beats the risk-free rate")).

(** A provider that cannot be reached. *)
Definition unreachable : World :=
  variant (λ _ _, inl "provider unreachable") (max_sharpe Demo.market).

(** A provider that answers the first request and fails at the second. *)
Definition flaky : World :=
  variant
    (λ k call, if bool_decide (k = 1) then inl "timed out"
               else download Demo.market k call)
    (max_sharpe Demo.market).

(** A table in which [MSFT] is listed but has no price on any day. *)
Definition gappy_prices : Pandas.DataFrame :=
  {| Pandas.index := ["2026-11-02"; "2026-11-03"];
     Pandas.columns :=
       [("AAPL", [Some (Py.of_Z 102); Some (Py.of_Z 101)]);
        ("MSFT", [None; None])] |}.

Definition gappy : World :=
  variant (λ _ _, inr gappy_prices) (max_sharpe Demo.market).

(** A market whose volatility is exactly 15 %. *)
Definition borderline : World :=
  Demo.world (Py.dec 10 100, Py.dec 15 100, Py.dec 12 10).

(** A record and an analysis to try the recommendations on. *)
Definition optimum : optimization :=
  {| optimal_weights := [("AAPL", Py.dec 6 10); ("MSFT", Py.dec 4 10)];
     expected_annual_return := Py.dec 1234 100;
     annual_volatility := Py.dec 1825 100;
     sharpe_ratio := Py.dec 12 10;
     tickers := ["AAPL"; "MSFT"; "TSLA"];
     analysis_period := {| start := None; end_ := None |} |}.

Definition entry (weight : Qc) : analysis :=
  {| current_price := Py.of_Z 100;
     avg_return := Py.of_Z 10;
     volatility := Py.of_Z 20;
     optimal_weight := weight;
     recommended_allocation := Py.round2 (Py.mul (Py.of_Z 5000) weight) |}.

Definition analysed : Py.dict analysis :=
  [("AAPL", entry (Py.dec 6 10)); ("MSFT", entry (Py.dec 4 10));
   ("TSLA", entry 0%Qc)].

(** The demo market with a clock that passes midnight between its first
    and its second reading. *)
Definition midnight : World :=
  {| now := λ k, if bool_decide (k = 0) then Demo.today else (Demo.today + 1)%Z;
     download := download Demo.market;
     mean_historical_return := mean_historical_return Demo.market;
     sample_cov := sample_cov Demo.market;
     max_sharpe := max_sharpe Demo.market;
     clean_weights := clean_weights Demo.market;
     portfolio_performance := portfolio_performance Demo.market;
     pct_change := pct_change Demo.market;
     mean := mean Demo.market;
     std := std Demo.market;
     sqrt_252 := sqrt_252 Demo.market;
     pow := pow Demo.market;
     float := float Demo.market |}.

(** A record in which no asset has a weight. *)
Definition unweighted : optimization :=
  {| optimal_weights := [];
     expected_annual_return := Py.dec 1234 100;
     annual_volatility := Py.dec 1825 100;
     sharpe_ratio := Py.dec 12 10;
     tickers := ["AAPL"; "MSFT"; "TSLA"];
     analysis_period := {| start := None; end_ := None |} |}.

(** A record whose largest weight is 0.5865, and an analysis with the
    weights 0.5865 and 0.4135. *)
Definition uneven : optimization :=
  {| optimal_weights := [("AAPL", Py.dec 5865 10000); ("MSFT", Py.dec 4135 10000)];
     expected_annual_return := Py.dec 1234 100;
     annual_volatility := Py.dec 1825 100;
     sharpe_ratio := Py.dec 12 10;
     tickers := ["AAPL"; "MSFT"];
     analysis_period := {| start := None; end_ := None |} |}.

Definition uneven_analysed : Py.dict analysis :=
  [("AAPL", entry (Py.dec 5865 10000)); ("MSFT", entry (Py.dec 4135 10000))].

End Faults.

(** * Properties *)

(** ** Comparisons and rounding *)

Lemma gtb_true (x y : Qc) : Py.gtb x y = true ↔ (y < x)%Qc.
Proof. unfold Py.gtb. apply bool_decide_eq_true. Qed.

Lemma gtb_false (x y : Qc) : Py.gtb x y = false ↔ (x ≤ y)%Qc.
Proof.
  unfold Py.gtb. rewrite bool_decide_eq_false. symmetry. apply Qcle_ngt.
Qed.

Lemma ltb_true (x y : Qc) : Py.ltb x y = true ↔ (x < y)%Qc.
Proof. unfold Py.ltb. apply bool_decide_eq_true. Qed.

(** ** The model at work *)

Example split_tickers : Py.split "," "AAPL,MSFT" = ["AAPL"; "MSFT"].
Proof. reflexivity. Qed.

Example split_empty : Py.split "," "" = [""].
Proof. reflexivity. Qed.

Example round2_down : Py.round2 (Py.dec 66666 1000) = Py.dec 6667 100.
Proof. reflexivity. Qed.

Example round2_tie : Py.round2 (Py.dec 125 1000) = Py.dec 12 100.
Proof. reflexivity. Qed.

Example strftime_today : Datetime.strftime_ymd Demo.today = "2026-11-03".
Proof. reflexivity. Qed.

Example strftime_start :
  Datetime.strftime_ymd (Datetime.minus_days Demo.today 730) = "2024-11-03".
Proof. reflexivity. Qed.

Example percent_1f_60 : Py.percent_1f (Py.dec 6 10) = "60.0".
Proof. reflexivity. Qed.

(** Binary rounding decides which way a decimal that looks like a tie
    goes: [0.5865 * 100] is the float [58.650000000000006],
    [0.4135 * 100] is [41.349999999999994] and [2500 * 0.40007] is just
    below [1000.175]. *)
Example percent_1f_up : Py.percent_1f (Py.dec 5865 10000) = "58.7".
Proof. reflexivity. Qed.

Example percent_1f_down : Py.percent_1f (Py.dec 4135 10000) = "41.3".
Proof. reflexivity. Qed.

Example percent_1f_negative : Py.percent_1f (Py.dec (-1) 10000) = "-0.0".
Proof. reflexivity. Qed.

Example round2_product :
  Py.round2 (Py.mul (Py.of_Z 2500) (Py.dec 40007 100000))
  = Py.dec 100017 100.
Proof. reflexivity. Qed.

(** In floats the order of the operations shows in the last cent:
    [23 / 160 * 100] is just below [14.375], [100 * 23 / 160] is
    [14.375]. *)
Example round2_order :
  Py.round2 (Py.mul (Py.ratio 23 160) (Py.of_Z 100)) = Py.dec 1437 100 ∧
  Py.round2 (Py.div (Py.mul (Py.of_Z 100) (Py.of_Z 23)) (Py.of_Z 160))
  = Py.dec 1438 100.
Proof. split; reflexivity. Qed.

Example round2_compounded :
  Py.round2
    (Py.mul (Py.of_Z 5000)
       (pow Demo.market
          (Py.add (Py.of_Z 1) (Py.div (Py.of_Z 5) (Py.of_Z 100))) 3))
  = Py.dec 578813 100.
Proof. reflexivity. Qed.

Example dict_set_keeps_position :
  Py.keys (Py.set (Py.set (Py.set [] "a" 1) "b" 2) "a" 3) = ["a"; "b"].
Proof. reflexivity. Qed.

Example provider_failure :
  run Demo.market [Demo.script; "predict"; "AAPL,DOWN"]
  = (Exited 1, [error_object "Failed to fetch data: provider unreachable"]).
Proof. reflexivity. Qed.

Example prediction_recommendations :
  ∃ p s,
    predict_portfolio_performance Demo.market Demo.request (Py.of_Z 5000)
      initial = (Ret (Success p), s) ∧
    recommendations p =
      ["Consider diversifying to improve risk-adjusted returns.";
       "Portfolio is concentrated in one asset (60.0%). Consider diversifying.";
       "AAPL: High allocation recommended (60.0%). Strong performer.";
       "MSFT: High allocation recommended (40.0%). Strong performer."].
Proof. eexists _, _. split; [vm_compute; reflexivity | reflexivity]. Qed.

Example recommendations_at_uneven_weights :
  generate_recommendations Faults.uneven Faults.uneven_analysed
  = Py.Ok
      ["Good risk-adjusted returns. Portfolio is well-balanced.";
       "Portfolio is concentrated in one asset (58.7%). Consider diversifying.";
       "AAPL: High allocation recommended (58.7%). Strong performer.";
       "MSFT: High allocation recommended (41.3%). Strong performer."].
Proof. reflexivity. Qed.

(** ** Risk levels *)

Lemma risk_level_high (v : Qc) : risk_level_of v = "High" ↔ (Py.of_Z 25 < v)%Qc.
Proof.
  unfold risk_level_of. rewrite <- gtb_true.
  destruct (Py.gtb v (Py.of_Z 25)); [done|].
  destruct (Py.gtb v (Py.of_Z 15)); done.
Qed.

Lemma risk_level_medium (v : Qc) :
  risk_level_of v = "Medium" ↔ (Py.of_Z 15 < v ≤ Py.of_Z 25)%Qc.
Proof.
  unfold risk_level_of. rewrite <- gtb_true, <- gtb_false.
  destruct (Py.gtb v (Py.of_Z 25)) eqn:H25.
  - split; [done | intros [_ ?]; done].
  - destruct (Py.gtb v (Py.of_Z 15)); split; try done. by intros [? _].
Qed.

Lemma risk_level_low (v : Qc) : risk_level_of v = "Low" ↔ (v ≤ Py.of_Z 15)%Qc.
Proof.
  unfold risk_level_of. rewrite <- gtb_false.
  destruct (Py.gtb v (Py.of_Z 25)) eqn:H25.
  - split; [done|]. intros H15. exfalso.
    apply gtb_true in H25. apply gtb_false in H15.
    apply (Qclt_not_le _ _ H25). etrans; [exact H15 | by vm_compute].
  - destruct (Py.gtb v (Py.of_Z 15)); done.
Qed.

Lemma risk_level_monotone (v1 v2 : Qc) :
  (v1 ≤ v2)%Qc → risk_rank (risk_level_of v1) ≤ risk_rank (risk_level_of v2).
Proof.
  intros Hle. unfold risk_level_of.
  destruct (Py.gtb v1 (Py.of_Z 25)) eqn:H1.
  - apply gtb_true in H1.
    assert (Py.gtb v2 (Py.of_Z 25) = true) as ->; [|done].
    apply gtb_true. by eapply Qclt_le_trans.
  - destruct (Py.gtb v1 (Py.of_Z 15)) eqn:H2.
    + apply gtb_true in H2.
      destruct (Py.gtb v2 (Py.of_Z 25)); [vm_compute; lia|].
      assert (Py.gtb v2 (Py.of_Z 15) = true) as ->; [|done].
      apply gtb_true. by eapply Qclt_le_trans.
    + destruct (Py.gtb v2 (Py.of_Z 25)); [vm_compute; lia|].
      destruct (Py.gtb v2 (Py.of_Z 15)); vm_compute; lia.
Qed.

(** ** Rounding keeps integer bounds *)




(** ** Binary rounding keeps integer bounds *)







(** ** Successful runs of [predict_portfolio_performance] *)

(** Splits a successful run into its steps: the optimisation, the second
    request, the per-ticker loop, the score and the recommendations. *)
Ltac predict_steps H :=
  unfold predict_portfolio_performance, mbind, M_bind in H;
  cbn [datetime_now] in H;
  destruct (optimize_portfolio _ _ _ _ _) as [[[?|?o]|?|?] ?s] eqn:?Hopt in H;
    try discriminate H;
  destruct (fetch_portfolio_data _ _ _ _ _) as [[?data|?|?] ?s] eqn:?Hfetch in H;
    try discriminate H;
  unfold lift in H;
  destruct (stock_analysis_loop _ _ _ _ _ _) as [?sa|?] eqn:?Hloop in H;
    try discriminate H;
  destruct (diversification_score_of _ _) as [?score|?] eqn:?Hscore in H;
    try discriminate H;
  destruct (generate_recommendations _ _) as [?recs|?] eqn:?Hrecs in H;
    try discriminate H;
  unfold mret, M_ret in H;
  injection H as <- <-.



(** C3: the risk level of a result is "High" exactly above 25, "Medium"
    exactly above 15 and up to 25, "Low" otherwise; between two results
    it never decreases when the volatility increases. *)
Theorem risk_level_follows_volatility_thresholds (w1 w2 : World)
    (tickers1 tickers2 : list string) (A1 A2 : Qc) (s1 s1' s2 s2' : state)
    (p1 p2 : prediction) :
  predict_portfolio_performance w1 tickers1 A1 s1 = (Ret (Success p1), s1') →
  predict_portfolio_performance w2 tickers2 A2 s2 = (Ret (Success p2), s2') →
  let v1 := annual_volatility (portfolio_optimization p1) in
  let v2 := annual_volatility (portfolio_optimization p2) in
  let level1 := risk_level (risk_assessment p1) in
  let level2 := risk_level (risk_assessment p2) in
  (level1 = "High" ↔ (Py.of_Z 25 < v1)%Qc) ∧
  (level1 = "Medium" ↔ (Py.of_Z 15 < v1 ≤ Py.of_Z 25)%Qc) ∧
  (level1 = "Low" ↔ (v1 ≤ Py.of_Z 15)%Qc) ∧
  ((v1 ≤ v2)%Qc → risk_rank level1 ≤ risk_rank level2).
Proof.
  intros H1 H2. predict_steps H1. predict_steps H2. cbn.
  split_and!.
  - apply risk_level_high.
  - apply risk_level_medium.
  - apply risk_level_low.
  - apply risk_level_monotone.
Qed.

(** The ordinary market is rated "Medium", the turbulent one not lower. *)
Lemma risk_level_follows_volatility_thresholds_witness :
  ∃ p1 s1 p2 s2,
    predict_portfolio_performance Demo.market Demo.request (Py.of_Z 5000)
      initial = (Ret (Success p1), s1) ∧
    predict_portfolio_performance Demo.turbulent Demo.request (Py.of_Z 5000)
      initial = (Ret (Success p2), s2) ∧
    annual_volatility (portfolio_optimization p1) = Py.dec 1825 100 ∧
    annual_volatility (portfolio_optimization p2) = Py.of_Z 35 ∧
    (risk_level (risk_assessment p1) = "Medium"
     ↔ (Py.of_Z 15 < annual_volatility (portfolio_optimization p1)
        ≤ Py.of_Z 25)%Qc) ∧
    risk_rank (risk_level (risk_assessment p1))
    ≤ risk_rank (risk_level (risk_assessment p2)).
Proof.
  eexists _, _, _, _.
  split; [vm_compute; reflexivity|]. split; [vm_compute; reflexivity|].
  split; [reflexivity|]. split; [by apply Qc_is_canon|].
  pose proof (risk_level_follows_volatility_thresholds
                Demo.market Demo.turbulent Demo.request Demo.request
                (Py.of_Z 5000) (Py.of_Z 5000) initial _ initial _ _ _
                eq_refl eq_refl)
    as (_ & Hmedium & _ & Hmonotone).
  split; [exact Hmedium|]. apply Hmonotone. by vm_compute.
Defined.

(** ** The diversification score *)






(** A prediction needs at least one ticker: the score divides by their
    number. *)
Lemma prediction_needs_a_ticker (w : World) (A : Qc) (s s' : state)
    (p : prediction) :
  predict_portfolio_performance w [] A s ≠ (Ret (Success p), s').
Proof. intros H. predict_steps H. Qed.

(** ** Recommendations *)

Lemma foldl_app_only {A B} (f : list A → B → list A) (items : list B) :
  (∀ l x, ∃ more, f l x = l ++ more) →
  ∀ l, ∃ more, foldl f l items = l ++ more.
Proof.
  intros Hf. induction items as [|x items IH]; intros l; cbn.
  - exists []. by rewrite app_nil_r.
  - destruct (Hf l x) as [m1 ->]. destruct (IH (l ++ m1)) as [m2 ->].
    exists (m1 ++ m2). by rewrite app_assoc.
Qed.

Lemma max_nonempty (xs : list Qc) : xs ≠ [] → ∃ m, Py.max xs = Py.Ok m.
Proof. destruct xs; [done|]. eauto. Qed.

(** C10: over a non-empty weight mapping, [generate_recommendations]
    returns a list that starts with one of the three Sharpe-ratio
    sentences, and which one depends on the Sharpe ratio alone: above 1.5,
    above 1.0 up to 1.5, or at most 1.0. *)
Theorem recommendations_start_with_sharpe_sentence (o : optimization)
    (sa : Py.dict analysis) :
  optimal_weights o ≠ [] →
  ∃ first others,
    generate_recommendations o sa = Py.Ok (first :: others) ∧
    ((Py.dec 15 10 < sharpe_ratio o)%Qc → first = sharpe_excellent) ∧
    ((Py.of_Z 1 < sharpe_ratio o ≤ Py.dec 15 10)%Qc → first = sharpe_good) ∧
    ((sharpe_ratio o ≤ Py.of_Z 1)%Qc → first = sharpe_poor).
Proof.
  intros Hw. unfold generate_recommendations.
  destruct (max_nonempty (Py.values (optimal_weights o))) as [m ->].
  { unfold Py.values. by destruct (optimal_weights o). }
  cbn [mbind Py.res_bind mret Py.res_ret].
  assert (Py.gtb (sharpe_ratio o) (Py.dec 15 10) = true →
          Py.gtb (sharpe_ratio o) (Py.of_Z 1) = true) as Hstrict.
  { rewrite !gtb_true. intros H. eapply Qclt_trans; [|exact H]. by vm_compute. }
  match goal with
  | |- context [foldl ?f ?l0 sa] =>
      assert (∀ l x, ∃ more, f l x = l ++ more) as Hstep;
      [| destruct (foldl_app_only f sa Hstep l0) as [more ->]; clear Hstep ]
  end.
  { intros l [ticker a].
    destruct (Py.gtb (optimal_weight a) _); [eauto|].
    destruct (Py.ltb (optimal_weight a) _); [eauto|].
    exists []. by rewrite app_nil_r. }
  destruct (Py.gtb (sharpe_ratio o) (Py.dec 15 10)) eqn:H15;
    destruct (Py.gtb (sharpe_ratio o) (Py.of_Z 1)) eqn:H1;
    try (specialize (Hstrict eq_refl); discriminate Hstrict);
    destruct (Py.gtb (annual_volatility o) (Py.of_Z 25));
    destruct (Py.ltb (annual_volatility o) (Py.of_Z 15));
    destruct (Py.gtb m (Py.dec 4 10));
    cbn [app];
    (eexists _, _; split;
      [reflexivity |
       rewrite <- !gtb_true, <- !gtb_false, ?H15, ?H1;
       split_and!; intros; destruct_and?; congruence]).
Qed.

(** A Sharpe ratio of 1.2 earns the middle sentence. *)
Lemma recommendations_start_with_sharpe_sentence_witness :
  ∃ others,
    generate_recommendations
      {| optimal_weights := [("AAPL", Py.dec 6 10); ("MSFT", Py.dec 4 10)];
         expected_annual_return := Py.dec 1234 100;
         annual_volatility := Py.dec 1825 100;
         sharpe_ratio := Py.dec 12 10;
         tickers := ["AAPL"; "MSFT"];
         analysis_period := {| start := None; end_ := None |} |} []
    = Py.Ok (sharpe_good :: others).
Proof.
  destruct (recommendations_start_with_sharpe_sentence
              {| optimal_weights := [("AAPL", Py.dec 6 10); ("MSFT", Py.dec 4 10)];
                 expected_annual_return := Py.dec 1234 100;
                 annual_volatility := Py.dec 1825 100;
                 sharpe_ratio := Py.dec 12 10;
                 tickers := ["AAPL"; "MSFT"];
                 analysis_period := {| start := None; end_ := None |} |} [])
    as (first & others & Hrun & _ & Hgood & _).
  { discriminate. }
  exists others. rewrite Hrun, Hgood; [reflexivity|].
  split; [reflexivity | discriminate].
Defined.

(** Without any weight there is no maximum to report. *)
Lemma recommendations_need_a_weight (o : optimization)
    (sa : Py.dict analysis) :
  optimal_weights o = [] →
  generate_recommendations o sa
  = Py.Err (Py.ValueError "max() arg is an empty sequence").
Proof. intros Hw. unfold generate_recommendations. by rewrite Hw. Qed.

(** On a record without weights the function returns no list at all. *)
Lemma recommendations_fail_without_weights :
  generate_recommendations Faults.unweighted Faults.analysed
  = Py.Err (Py.ValueError "max() arg is an empty sequence") ∧
  ¬ ∃ first others,
      generate_recommendations Faults.unweighted Faults.analysed
      = Py.Ok (first :: others).
Proof. split; [reflexivity|]. by intros (first & others & [=]). Qed.

(** ** Dicts *)

Lemma get_is_Some {V} (d : Py.dict V) (k : string) :
  is_Some (Py.get d k) ↔ k ∈ Py.keys d.
Proof.
  unfold Py.keys. induction d as [|[k' v] d IH]; cbn.
  - split; [by intros [? ?] | by intros ?%elem_of_nil].
  - rewrite elem_of_cons. destruct (String.eqb_spec k' k) as [->|Hne].
    + split; eauto.
    + rewrite IH. split; [tauto | by intros [->|?]].
Qed.

Lemma keys_set {V} (d : Py.dict V) (k : string) (v : V) (t : string) :
  t ∈ Py.keys (Py.set d k v) ↔ t ∈ Py.keys d ∨ t = k.
Proof.
  unfold Py.keys. induction d as [|[k' v'] d IH]; cbn.
  - rewrite list_elem_of_singleton. split; [tauto|].
    by intros [?%elem_of_nil|?].
  - destruct (String.eqb_spec k' k) as [->|Hne]; cbn.
    + rewrite elem_of_cons. tauto.
    + rewrite !elem_of_cons, IH. tauto.
Qed.

Lemma keys_set_NoDup {V} (d : Py.dict V) (k : string) (v : V) :
  NoDup (Py.keys d) → NoDup (Py.keys (Py.set d k v)).
Proof.
  unfold Py.keys. induction d as [|[k' v'] d IH]; cbn.
  - intros _. apply NoDup_singleton.
  - rewrite !NoDup_cons. intros [Hk' Hd].
    destruct (String.eqb_spec k' k) as [->|Hne]; cbn; rewrite NoDup_cons.
    + done.
    + split; [|by apply IH].
      intros [?|?]%(keys_set d k v k'); [done | congruence].
Qed.

(** ** The per-ticker loop *)

Section loop.
Context (w : World) (data : Pandas.DataFrame) (o : optimization) (A : Qc).

Local Abbreviation present := (λ ticker, ticker ∈ Py.keys (Pandas.columns data)).

Lemma column_present (ticker : string) :
  is_Some (Pandas.column data ticker) ↔ present ticker.
Proof. apply get_is_Some. Qed.

Lemma loop_skips_absent (tickers : list string) (acc : Py.dict analysis) :
  stock_analysis_loop w data o A tickers acc
  = stock_analysis_loop w data o A (filter present tickers) acc.
Proof.
  revert acc. induction tickers as [|t tickers IH]; intros acc; [done|].
  cbn [stock_analysis_loop].
  destruct (Pandas.column data t) as [col|] eqn:Hcol.
  - rewrite filter_cons_True by (apply column_present; eauto).
    cbn [stock_analysis_loop]. rewrite Hcol.
    destruct (Pandas.iloc_last _); cbn; [apply IH | done].
  - rewrite filter_cons_False; [apply IH|].
    rewrite <- column_present, Hcol. by intros [? ?].
Qed.

Lemma loop_returns (tickers : list string) (acc : Py.dict analysis) :
  (∀ t col, t ∈ tickers → Pandas.column data t = Some col →
            Pandas.dropna col ≠ []) →
  ∃ sa, stock_analysis_loop w data o A tickers acc = Py.Ok sa.
Proof.
  revert acc. induction tickers as [|t tickers IH]; intros acc Hpriced.
  { by eexists. }
  cbn [stock_analysis_loop].
  destruct (Pandas.column data t) as [col|] eqn:Hcol.
  - assert (Pandas.dropna col ≠ []) as Hcol' by (eapply Hpriced; [left|done]).
    unfold Pandas.iloc_last.
    destruct (last (Pandas.dropna col)) as [x|] eqn:Hlast.
    + cbn. apply IH. intros ???. apply Hpriced. by right.
    + by apply last_None in Hlast.
  - apply IH. intros ???. apply Hpriced. by right.
Qed.

Lemma loop_keys (tickers : list string) (acc sa : Py.dict analysis) :
  stock_analysis_loop w data o A tickers acc = Py.Ok sa →
  (∀ t, t ∈ Py.keys sa ↔ t ∈ Py.keys acc ∨ (t ∈ tickers ∧ present t)) ∧
  (NoDup (Py.keys acc) → NoDup (Py.keys sa)).
Proof.
  revert acc. induction tickers as [|t tickers IH]; intros acc; cbn.
  { intros [= ->]. split; [|done]. intros t. rewrite elem_of_nil. tauto. }
  destruct (Pandas.column data t) as [col|] eqn:Hcol.
  - destruct (Pandas.iloc_last _) as [x|]; [cbn|done].
    intros [Hkeys Hnodup]%IH. split.
    + intros t'. rewrite Hkeys, keys_set, elem_of_cons.
      assert (present t) by (apply column_present; eauto).
      split; [|tauto]. intros [[?| ->]|[? ?]]; tauto.
    + intros ?. by apply Hnodup, keys_set_NoDup.
  - intros [Hkeys Hnodup]%IH. split; [|done].
    intros t'. rewrite Hkeys, elem_of_cons.
    assert (¬ present t).
    { rewrite <- column_present, Hcol. by intros [? ?]. }
    split; [tauto|]. intros [?|[[->|?] ?]]; tauto.
Qed.

End loop.

(** C6: a requested ticker that is no column of the fetched table is
    skipped by the loop, adding no entry and raising nothing; the loop
    returns whenever every column it meets has a price; and the
    [stock_analysis] of a result has one entry for each requested ticker
    that is a column of the table fetched for it, and no other. *)
Theorem stock_analysis_lists_present_tickers (w : World)
    (tickers : list string) (A : Qc) :
  (∀ data o acc,
     stock_analysis_loop w data o A tickers acc
     = stock_analysis_loop w data o A
         (filter (λ t, t ∈ Py.keys (Pandas.columns data)) tickers) acc) ∧
  (∀ data o acc,
     (∀ t col, t ∈ tickers → Pandas.column data t = Some col →
               Pandas.dropna col ≠ []) →
     ∃ sa, stock_analysis_loop w data o A tickers acc = Py.Ok sa) ∧
  (∀ s s' p,
     predict_portfolio_performance w tickers A s = (Ret (Success p), s') →
     ∃ data start_date end_date s1,
       fetch_portfolio_data w tickers start_date end_date s1 = (Ret data, s') ∧
       NoDup (Py.keys (stock_analysis p)) ∧
       ∀ t, t ∈ Py.keys (stock_analysis p)
            ↔ t ∈ tickers ∧ t ∈ Py.keys (Pandas.columns data)).
Proof.
  split_and!.
  - intros data o acc. apply loop_skips_absent.
  - intros data o acc. apply loop_returns.
  - intros s s' p H. predict_steps H. cbn.
    destruct (loop_keys _ _ _ _ _ _ _ Hloop) as [Hkeys Hnodup].
    eexists _, _, _, _. split; [exact Hfetch|]. split.
    + apply Hnodup. constructor.
    + intros t. rewrite Hkeys. cbn. rewrite elem_of_nil. tauto.
Qed.

(** [ZZZZ] is requested but not listed: the analysis covers the other two. *)
Lemma stock_analysis_lists_present_tickers_witness :
  (∃ sa,
     stock_analysis_loop Demo.market Demo.prices
       {| optimal_weights := [("AAPL", Py.dec 6 10); ("MSFT", Py.dec 4 10)];
          expected_annual_return := Py.dec 1234 100;
          annual_volatility := Py.dec 1825 100;
          sharpe_ratio := Py.dec 57 100;
          tickers := Demo.request;
          analysis_period := {| start := None; end_ := None |} |}
       (Py.of_Z 5000) Demo.request [] = Py.Ok sa) ∧
  ∃ p s',
    predict_portfolio_performance Demo.market Demo.request (Py.of_Z 5000)
      initial = (Ret (Success p), s') ∧
    Py.keys (stock_analysis p) = ["AAPL"; "MSFT"] ∧
    ∃ data start_date end_date s1,
      fetch_portfolio_data Demo.market Demo.request start_date end_date s1
      = (Ret data, s') ∧
      NoDup (Py.keys (stock_analysis p)) ∧
      ∀ t, t ∈ Py.keys (stock_analysis p)
           ↔ t ∈ Demo.request ∧ t ∈ Py.keys (Pandas.columns data).
Proof.
  destruct (stock_analysis_lists_present_tickers Demo.market Demo.request
              (Py.of_Z 5000)) as (_ & Hreturns & Hkeys).
  split.
  - apply Hreturns. intros t col Ht Hcol.
    unfold Demo.request in Ht.
    repeat (apply elem_of_cons in Ht as [->|Ht]);
      [| | |by apply elem_of_nil in Ht];
      vm_compute in Hcol;
      first [discriminate Hcol | by injection Hcol as <-].
  - eexists _, _. split; [vm_compute; reflexivity|]. split; [reflexivity|].
    apply (Hkeys initial). reflexivity.
Defined.

(** ** The optimiser call *)

Lemma fetch_logs_request (w : World) (tickers : list string)
    (start_date end_date : option string) (s s' : state)
    (r : outcome Pandas.DataFrame) :
  fetch_portfolio_data w tickers start_date end_date s = (r, s') →
  fetch_log s' = fetch_log s ++ [(tickers, start_date, end_date)] ∧
  clock_reads s' = clock_reads s.
Proof.
  unfold fetch_portfolio_data, try_except, yf_download.
  destruct (download w _ _); cbn; by intros [= <- <-].
Qed.

Lemma fetch_returns_download (w : World) (tickers : list string)
    (start_date end_date : option string) (s : state)
    (data : Pandas.DataFrame) :
  download w (length (fetch_log s)) (tickers, start_date, end_date) = inr data →
  fetch_portfolio_data w tickers start_date end_date s
  = (Ret data, requested (tickers, start_date, end_date) s).
Proof.
  intros H. unfold fetch_portfolio_data, try_except, yf_download. by rewrite H.
Qed.

Lemma fetch_fails_download (w : World) (tickers : list string)
    (start_date end_date : option string) (s : state) (msg : string) :
  download w (length (fetch_log s)) (tickers, start_date, end_date) = inl msg →
  fetch_portfolio_data w tickers start_date end_date s
  = (SysExit 1,
     written (error_object ("Failed to fetch data: " +:+ msg))
       (requested (tickers, start_date, end_date) s)).
Proof.
  intros H. unfold fetch_portfolio_data, try_except, yf_download. by rewrite H.
Qed.

Lemma optimize_on_empty_table (w : World) (tickers : list string)
    (start_date end_date start_date' end_date' : option string)
    (s s1 : state) (data : Pandas.DataFrame) :
  default_period w start_date end_date s = (Ret (start_date', end_date'), s1) →
  download w (length (fetch_log s1)) (tickers, start_date', end_date') = inr data →
  Pandas.empty data = true →
  optimize_portfolio w tickers start_date end_date s
  = (Ret (ErrorRecord "No data available for the given tickers"),
     requested (tickers, start_date', end_date') s1).
Proof.
  intros Hperiod Hdata Hempty.
  unfold optimize_portfolio, mbind, M_bind. rewrite Hperiod.
  by rewrite (fetch_returns_download _ _ _ _ _ _ Hdata), Hempty.
Qed.

Lemma optimize_on_fetch_failure (w : World) (tickers : list string)
    (start_date end_date start_date' end_date' : option string)
    (s s1 : state) (msg : string) :
  default_period w start_date end_date s = (Ret (start_date', end_date'), s1) →
  download w (length (fetch_log s1)) (tickers, start_date', end_date') = inl msg →
  optimize_portfolio w tickers start_date end_date s
  = (SysExit 1,
     written (error_object ("Failed to fetch data: " +:+ msg))
       (requested (tickers, start_date', end_date') s1)).
Proof.
  intros Hperiod Hdata.
  unfold optimize_portfolio, mbind, M_bind. rewrite Hperiod.
  by rewrite (fetch_fails_download _ _ _ _ _ _ Hdata).
Qed.

(** C5: when the table fetched for the period is empty,
    [optimize_portfolio] returns the error record; it neither raises nor
    exits, and writes nothing. *)
Theorem empty_table_gives_error_record (w : World) (tickers : list string)
    (start_date end_date start_date' end_date' : option string)
    (s s1 : state) (data : Pandas.DataFrame) :
  default_period w start_date end_date s = (Ret (start_date', end_date'), s1) →
  download w (length (fetch_log s1)) (tickers, start_date', end_date') = inr data →
  Pandas.empty data = true →
  ∃ r s',
    optimize_portfolio w tickers start_date end_date s = (Ret r, s') ∧
    r = ErrorRecord "No data available for the given tickers" ∧
    has_error r = true ∧
    Py.has_field "error" (json_of_result json_of_optimization r) = true ∧
    stdout s' = stdout s.
Proof.
  intros Hperiod Hdata Hempty.
  eexists _, _. split.
  - by eapply optimize_on_empty_table.
  - split_and!; try done.
    unfold default_period in Hperiod.
    destruct (falsy start_date); by injection Hperiod as <- <- <-.
Qed.

(** No prices for [ZZZZ] in the demo market. *)
Lemma empty_table_gives_error_record_witness :
  ∃ r s',
    optimize_portfolio Demo.market ["ZZZZ"] None None initial = (Ret r, s') ∧
    r = ErrorRecord "No data available for the given tickers" ∧
    has_error r = true ∧
    Py.has_field "error" (json_of_result json_of_optimization r) = true ∧
    stdout s' = stdout initial.
Proof.
  apply (empty_table_gives_error_record Demo.market ["ZZZZ"] None None
           (Some "2024-11-03") (Some "2026-11-03") initial
           (ticked (ticked initial)) Demo.no_prices).
  - vm_compute. reflexivity.
  - vm_compute. reflexivity.
  - reflexivity.
Defined.

(** ** The analysis period *)

Lemma strftime_ymd_nonempty (d : Datetime.datetime) :
  Datetime.strftime_ymd d ≠ "".
Proof.
  unfold Datetime.strftime_ymd.
  destruct (Datetime.ymd_of_ordinal d) as [[y m] day].
  by destruct (Datetime.pad 4 y).
Qed.

Lemma default_period_given (w : World) (start_date : string)
    (end_date : option string) (s : state) :
  start_date ≠ "" →
  default_period w (Some start_date) end_date s
  = (Ret (Some start_date, end_date), s).
Proof.
  intros Hne. unfold default_period, falsy. by rewrite bool_decide_eq_false_2.
Qed.

Lemma default_period_missing (w : World) (end_date : option string)
    (s : state) :
  default_period w None end_date s
  = (Ret (Some (Datetime.strftime_ymd
                  (Datetime.minus_days (now w (S (clock_reads s))) 730)),
          Some (Datetime.strftime_ymd (now w (clock_reads s)))),
     ticked (ticked s)).
Proof. reflexivity. Qed.

Lemma optimize_uses_period (w : World) (tickers : list string)
    (start_date end_date start_date' end_date' : option string)
    (s s1 s' : state) (r : outcome (result optimization)) :
  default_period w start_date end_date s = (Ret (start_date', end_date'), s1) →
  optimize_portfolio w tickers start_date end_date s = (r, s') →
  fetch_log s' = fetch_log s1 ++ [(tickers, start_date', end_date')] ∧
  ∀ o, r = Ret (Success o) →
       analysis_period o = {| start := start_date'; end_ := end_date' |}.
Proof.
  intros Hperiod. unfold optimize_portfolio, mbind, M_bind. rewrite Hperiod.
  destruct (fetch_portfolio_data _ _ _ _ _) as [[data| |] s2] eqn:Hfetch;
    apply fetch_logs_request in Hfetch as [Hlog _].
  - destruct (Pandas.empty data).
    { intros [= <- <-]. done. }
    unfold lift.
    destruct (mean_historical_return w data); [|by intros [= <- <-]].
    destruct (sample_cov w data); [|by intros [= <- <-]].
    destruct (max_sharpe w _ _); [|by intros [= <- <-]].
    destruct (portfolio_performance w _ _ _); [|by intros [= <- <-]].
    intros [= <- <-]. split; [done|]. by intros o [= <-].
  - by intros [= <- <-].
  - by intros [= <- <-].
Qed.

(** A run that ends without a result: the requests are logged, and there
    is no record to speak of. *)
Ltac leaves_early :=
  intros [= <- <-]; split; [auto | intros ? [=]].

(** C9: when the clock shows the same day at both readings, the optimise
    command and every prediction request the provider for the 730 days up
    to that day, and a result records that start and that end. *)
Theorem analysis_period_is_730_days_to_today (w : World)
    (tickers : list string) (today : Datetime.datetime) (s : state) :
  now w (clock_reads s) = today →
  now w (S (clock_reads s)) = today →
  let range :=
    {| start := Some (Datetime.strftime_ymd (Datetime.minus_days today 730));
       end_ := Some (Datetime.strftime_ymd today) |} in
  let request := (tickers, start range, end_ range) in
  (∀ end_date r s',
     optimize_portfolio w tickers None end_date s = (r, s') →
     fetch_log s' = fetch_log s ++ [request] ∧
     ∀ o, r = Ret (Success o) → analysis_period o = range) ∧
  (∀ A r s',
     predict_portfolio_performance w tickers A s = (r, s') →
     (fetch_log s' = fetch_log s ++ [request] ∨
      fetch_log s' = fetch_log s ++ [request; request]) ∧
     ∀ p, r = Ret (Success p) →
          analysis_period (portfolio_optimization p) = range).
Proof.
  intros Hend Hstart range request. split.
  - intros end_date r s' H.
    eapply optimize_uses_period in H; [|apply default_period_missing].
    cbn [ticked fetch_log] in H. rewrite Hend, Hstart in H. exact H.
  - intros A r s'.
    unfold predict_portfolio_performance, mbind, M_bind.
    cbn [datetime_now ticked clock_reads]. rewrite Hend, Hstart.
    destruct (optimize_portfolio _ _ _ _ _) as [r1 s1] eqn:Hopt.
    eapply optimize_uses_period in Hopt as [Hlog1 Hrange];
      [|by apply default_period_given, strftime_ymd_nonempty].
    cbn [ticked fetch_log] in Hlog1.
    unfold mret, M_ret.
    destruct r1 as [[msg|o]| |]; try by leaves_early.
    specialize (Hrange o eq_refl).
    destruct (fetch_portfolio_data _ _ _ _ _) as [r2 s2] eqn:Hfetch.
    apply fetch_logs_request in Hfetch as [Hlog2 _].
    assert (fetch_log s2 = fetch_log s ++ [request; request]) as Hlog.
    { rewrite Hlog2, Hlog1. by rewrite <- app_assoc. }
    destruct r2 as [data| |]; try by leaves_early.
    unfold lift.
    destruct (stock_analysis_loop _ _ _ _ _ _); [|by leaves_early].
    destruct (diversification_score_of _ _); [|by leaves_early].
    destruct (generate_recommendations _ _); [|by leaves_early].
    intros [= <- <-]. split; [auto|]. by intros p [= <-].
Qed.

(** On 2026-11-03 the period starts on 2024-11-03. *)
Lemma analysis_period_is_730_days_to_today_witness :
  (∃ o s',
     optimize_portfolio Demo.market ["AAPL"; "MSFT"] None None initial
     = (Ret (Success o), s') ∧
     fetch_log s' = [(["AAPL"; "MSFT"], Some "2024-11-03", Some "2026-11-03")] ∧
     analysis_period o
     = {| start := Some "2024-11-03"; end_ := Some "2026-11-03" |}) ∧
  (∃ p s',
     predict_portfolio_performance Demo.market ["AAPL"; "MSFT"] (Py.of_Z 5000)
       initial = (Ret (Success p), s') ∧
     analysis_period (portfolio_optimization p)
     = {| start := Some "2024-11-03"; end_ := Some "2026-11-03" |}).
Proof.
  destruct (analysis_period_is_730_days_to_today Demo.market ["AAPL"; "MSFT"]
              Demo.today initial eq_refl eq_refl) as [Hoptimize Hpredict].
  split.
  - eexists _, _. split; [vm_compute; reflexivity|].
    destruct (Hoptimize None _ _ eq_refl) as [Hlog Hrange].
    split; [exact Hlog | exact (Hrange _ eq_refl)].
  - eexists _, _. split; [vm_compute; reflexivity|].
    destruct (Hpredict (Py.of_Z 5000) _ _ eq_refl) as [_ Hrange].
    exact (Hrange _ eq_refl).
Defined.

(** When midnight passes between the two readings of the clock, the
    period requested and recorded starts 729 days before its end: it is
    the 730 days up to neither of the days the clock has shown. *)
Lemma analysis_period_across_midnight :
  let range := {| start := Some "2024-11-04"; end_ := Some "2026-11-03" |} in
  let period_up_to (today : Datetime.datetime) :=
    {| start := Some (Datetime.strftime_ymd (Datetime.minus_days today 730));
       end_ := Some (Datetime.strftime_ymd today) |} in
  (∃ o s',
     optimize_portfolio Faults.midnight ["AAPL"; "MSFT"] None None initial
     = (Ret (Success o), s') ∧
     fetch_log s' = [(["AAPL"; "MSFT"], start range, end_ range)] ∧
     analysis_period o = range) ∧
  (∃ p s',
     predict_portfolio_performance Faults.midnight ["AAPL"; "MSFT"]
       (Py.of_Z 5000) initial = (Ret (Success p), s') ∧
     analysis_period (portfolio_optimization p) = range) ∧
  end_ range = Some (Datetime.strftime_ymd Demo.today) ∧
  start range
  = Some (Datetime.strftime_ymd (Datetime.minus_days Demo.today 729)) ∧
  ∀ k, range ≠ period_up_to (now Faults.midnight k).
Proof.
  cbn zeta. split_and!.
  - eexists _, _. split; [vm_compute; reflexivity|]. split; reflexivity.
  - eexists _, _. split; [vm_compute; reflexivity|]. reflexivity.
  - reflexivity.
  - reflexivity.
  - intros [|k]; vm_compute; discriminate.
Qed.

(** ** The command line *)

Lemma fetch_quiet_or_failed (w : World) (tickers : list string)
    (start_date end_date : option string) (s s' : state)
    (r : outcome Pandas.DataFrame) :
  fetch_portfolio_data w tickers start_date end_date s = (r, s') →
  quiet_or_failed s r s' ∧ ∀ e, r ≠ Raise e.
Proof.
  unfold fetch_portfolio_data, try_except, yf_download.
  destruct (download w _ _); cbn; intros [= <- <-]; cbn; eauto.
Qed.

Lemma default_period_quiet (w : World) (start_date end_date : option string)
    (s : state) :
  ∃ range s1, default_period w start_date end_date s = (Ret range, s1) ∧
              stdout s1 = stdout s.
Proof.
  unfold default_period. destruct (falsy start_date); by eexists _, _.
Qed.

Lemma optimize_quiet_or_failed (w : World) (tickers : list string)
    (start_date end_date : option string) (s s' : state)
    (r : outcome (result optimization)) :
  optimize_portfolio w tickers start_date end_date s = (r, s') →
  quiet_or_failed s r s'.
Proof.
  destruct (default_period_quiet w start_date end_date s)
    as ([sd ed] & s1 & Hperiod & Hout).
  unfold optimize_portfolio, mbind, M_bind. rewrite Hperiod.
  destruct (fetch_portfolio_data _ _ _ _ _) as [[data| |] s2] eqn:Hfetch;
    apply fetch_quiet_or_failed in Hfetch as [Hfetch Hraise];
    cbn in Hfetch; rewrite Hout in Hfetch.
  - destruct (Pandas.empty data); [by intros [= <- <-]|].
    unfold lift.
    destruct (mean_historical_return w data); [|by intros [= <- <-]].
    destruct (sample_cov w data); [|by intros [= <- <-]].
    destruct (max_sharpe w _ _); [|by intros [= <- <-]].
    destruct (portfolio_performance w _ _ _); [|by intros [= <- <-]].
    by intros [= <- <-].
  - by intros [= <- <-].
  - by intros [= <- <-].
Qed.

Lemma predict_quiet_or_failed (w : World) (tickers : list string) (A : Qc)
    (s s' : state) (r : outcome (result prediction)) :
  predict_portfolio_performance w tickers A s = (r, s') →
  quiet_or_failed s r s'.
Proof.
  unfold predict_portfolio_performance, mbind, M_bind.
  cbn [datetime_now].
  destruct (optimize_portfolio _ _ _ _ _) as [r1 s1] eqn:Hopt.
  apply optimize_quiet_or_failed in Hopt.
  destruct r1 as [[msg|o]| |]; cbn in Hopt; try (by intros [= <- <-]).
  destruct (fetch_portfolio_data _ _ _ _ _) as [[data| |] s2] eqn:Hfetch;
    apply fetch_quiet_or_failed in Hfetch as [Hfetch Hraise];
    cbn in Hfetch; rewrite Hopt in Hfetch; try (by intros [= <- <-]).
  unfold lift.
  destruct (stock_analysis_loop _ _ _ _ _ _); [|by intros [= <- <-]].
  destruct (diversification_score_of _ _); [|by intros [= <- <-]].
  destruct (generate_recommendations _ _); [|by intros [= <- <-]].
  by intros [= <- <-].
Qed.

Lemma result_is_object {A} (enc : A → Py.json) (r : result A) :
  (∀ a, Py.is_object (enc a) = true) →
  Py.is_object (json_of_result enc r) = true.
Proof. intros Henc. destruct r; [done | apply Henc]. Qed.

(** X1: what standard output holds for each way the script can end: one
    JSON object after a normal end, one error object after [sys.exit],
    which is always with status 1, and nothing after an uncaught
    exception. *)
Lemma run_outcomes (w : World) (argv : list string) :
  match run w argv with
  | (Exited 0, out) => ∃ j, out = [j] ∧ Py.is_object j = true
  | (Exited code, out) => code = 1%Z ∧ ∃ msg, out = [error_object msg]
  | (Uncaught _, out) => out = []
  end.
Proof.
  unfold run, main.
  case_bool_decide; [by cbn; split; eauto|].
  unfold mbind, M_bind, lift.
  destruct (Py.index argv 1) as [command|]; [|by cbn].
  case_bool_decide.
  { destruct (Py.index argv 2) as [arg|]; [|by cbn].
    destruct (optimize_portfolio _ _ _ _ _) as [[r| |] s] eqn:Hrun;
      apply optimize_quiet_or_failed in Hrun; cbn in *.
    - rewrite Hrun. eexists. split; [done|]. by apply result_is_object.
    - done.
    - destruct Hrun as [-> ?]. by split. }
  case_bool_decide; [|by cbn; split; eauto].
  destruct (Py.index argv 2) as [arg|]; [|by cbn].
  set (amount := if bool_decide (3 < length argv) then _ else _).
  assert (∃ r0, amount initial = (r0, initial) ∧ ∀ c, r0 ≠ SysExit c)
    as (r0 & -> & Hr0).
  { subst amount. case_bool_decide; [|by eexists].
    destruct (Py.index argv 3) as [a|]; [|by eexists].
    destruct (float w a); by eexists. }
  destruct r0 as [investment| |]; [|by cbn|by destruct (Hr0 code)].
  destruct (predict_portfolio_performance _ _ _ _) as [[r| |] s] eqn:Hrun;
    apply predict_quiet_or_failed in Hrun; cbn in *.
  - rewrite Hrun. eexists. split; [done|]. by apply result_is_object.
  - done.
  - destruct Hrun as [-> ?]. by split.
Qed.

Lemma main_optimize (w : World) (script arg : string) :
  main w [script; "optimize"; arg]
  = (optimize_portfolio w (Py.split "," arg) None None
     ≫= λ result, print (json_of_result json_of_optimization result)).
Proof. reflexivity. Qed.

Lemma main_predict (w : World) (script arg : string) :
  main w [script; "predict"; arg]
  = (predict_portfolio_performance w (Py.split "," arg) (Py.of_Z 10000)
     ≫= λ result, print (json_of_result json_of_prediction result)).
Proof. reflexivity. Qed.

(** The two usage errors and a provider failure are reported with exit
    status 1. *)
Lemma no_argument_exits_1 (w : World) (script : string) :
  run w [script] = (Exited 1, [error_object "No tickers provided"]).
Proof. reflexivity. Qed.

Lemma unknown_command_exits_1 (w : World) (script : string) :
  run w [script; "rebalance"; "AAPL"]
  = (Exited 1, [error_object "Invalid command. Use 'optimize' or 'predict'"]).
Proof. reflexivity. Qed.

Lemma fetch_failure_exits_1 (w : World) (script arg msg : string) :
  (∀ call, download w 0 call = inl msg) →
  run w [script; "optimize"; arg]
  = (Exited 1, [error_object ("Failed to fetch data: " +:+ msg)]).
Proof.
  intros Hdown. unfold run. rewrite main_optimize. unfold mbind, M_bind.
  by erewrite optimize_on_fetch_failure;
    [|apply default_period_missing|apply Hdown].
Qed.

(** C1: the optimise command with a ticker the provider has no prices
    for writes the error record and ends with exit status 0. *)
Theorem error_record_ends_with_status_0 :
  run Demo.market [Demo.script; "optimize"; "ZZZZ"]
  = (Exited 0, [error_object "No data available for the given tickers"]) ∧
  exit_code (run Demo.market [Demo.script; "optimize"; "ZZZZ"]).1 = 0%Z.
Proof. split; reflexivity. Qed.

(** C7: a command with no ticker argument ends with an uncaught
    [IndexError] and nothing on standard output, whatever the world. *)
Theorem missing_ticker_argument_is_uncaught (w : World) (script : string) :
  run w [script; "optimize"]
  = (Uncaught (Py.IndexError "list index out of range"), []) ∧
  run w [script; "predict"]
  = (Uncaught (Py.IndexError "list index out of range"), []).
Proof. split; reflexivity. Qed.

(** With the ticker argument given and no prices for it, the error object
    is written and nothing is raised. *)
Lemma no_prices_writes_error_object (w : World) (script arg : string)
    (data : Pandas.DataFrame) :
  (∀ call, download w 0 call = inr data) →
  Pandas.empty data = true →
  run w [script; "optimize"; arg]
  = (Exited 0, [error_object "No data available for the given tickers"]) ∧
  run w [script; "predict"; arg]
  = (Exited 0, [error_object "No data available for the given tickers"]).
Proof.
  intros Hdown Hempty. unfold run. rewrite main_optimize, main_predict. split.
  - unfold mbind, M_bind.
    by erewrite optimize_on_empty_table;
      [|apply default_period_missing|apply Hdown|].
  - unfold predict_portfolio_performance, mbind, M_bind. cbn [datetime_now].
    by erewrite optimize_on_empty_table;
      [|apply default_period_given, strftime_ymd_nonempty|apply Hdown|].
Qed.

(** The weights of a result are the optimiser's cleaned weights, passed
    on unchanged. *)
Lemma optimal_weights_are_the_optimisers (w : World) (tickers : list string)
    (start_date end_date : option string) (s s' : state) (o : optimization) :
  optimize_portfolio w tickers start_date end_date s = (Ret (Success o), s') →
  ∃ data mu S weights,
    Pandas.empty data = false ∧
    mean_historical_return w data = Py.Ok mu ∧
    sample_cov w data = Py.Ok S ∧
    max_sharpe w mu S = Py.Ok weights ∧
    optimal_weights o = clean_weights w mu weights.
Proof.
  destruct (default_period_quiet w start_date end_date s)
    as ([sd ed] & s1 & Hperiod & _).
  unfold optimize_portfolio, mbind, M_bind. rewrite Hperiod.
  destruct (fetch_portfolio_data _ _ _ _ _) as [[data| |] s2]; try done.
  destruct (Pandas.empty data) eqn:Hempty; [done|].
  unfold lift.
  destruct (mean_historical_return w data) as [mu|] eqn:Hmu; [|done].
  destruct (sample_cov w data) as [S|] eqn:HS; [|done].
  destruct (max_sharpe w _ _) as [weights|] eqn:Hw; [|done].
  destruct (portfolio_performance w _ _ _); [|done].
  intros [= <- <-]. by eexists _, _, _, _.
Qed.

(** ** More on the recommendations *)

Lemma foldl_app_keeps {A B} (f : list A → B → list A) (items : list B)
    (l : list A) (x : A) :
  (∀ l y, ∃ more, f l y = l ++ more) →
  x ∈ l → x ∈ foldl f l items.
Proof.
  intros Hf Hx. destruct (foldl_app_only f items Hf l) as [more ->].
  apply elem_of_app. by left.
Qed.

Lemma foldl_app_adds {A B} (f : list A → B → list A) (items : list B)
    (l : list A) (x : A) (y : B) :
  (∀ l y, ∃ more, f l y = l ++ more) →
  y ∈ items → (∀ l, x ∈ f l y) → x ∈ foldl f l items.
Proof.
  intros Hf Hy Hx. revert l.
  induction items as [|z items IH]; intros l; [by apply elem_of_nil in Hy|].
  cbn. apply elem_of_cons in Hy as [<-|Hy].
  - by apply foldl_app_keeps.
  - by apply IH.
Qed.

Lemma max_is_greatest (xs : list Qc) (m : Qc) :
  Py.max xs = Py.Ok m → m ∈ xs ∧ ∀ x, x ∈ xs → (x ≤ m)%Qc.
Proof.
  destruct xs as [|x0 xs]; [done|]. cbn. intros [= <-].
  assert (∀ m0,
    let m := foldl (λ m y, if Py.gtb y m then y else m) m0 xs in
    (m = m0 ∨ m ∈ xs) ∧ (m0 ≤ m)%Qc ∧ ∀ x, x ∈ xs → (x ≤ m)%Qc) as Hfold.
  { induction xs as [|y xs IH]; intros m0; cbn.
    - split_and!; [by left | done | by intros ? ?%elem_of_nil].
    - destruct (Py.gtb y m0) eqn:Hgt.
      + destruct (IH y) as ([->|?] & Hle & Hmax).
        * split_and!; [right; left | | ].
          -- apply gtb_true in Hgt. by apply Qclt_le_weak.
          -- intros x [->|?]%elem_of_cons; [done | by apply Hmax].
        * split_and!; [by right; right | | ].
          -- apply gtb_true in Hgt.
             etrans; [by apply Qclt_le_weak | done].
          -- intros x [->|?]%elem_of_cons; [done | by apply Hmax].
      + destruct (IH m0) as (Hin & Hle & Hmax).
        split_and!; [|done|].
        * destruct Hin as [->|?]; [by left | by right; right].
        * intros x [->|?]%elem_of_cons; [|by apply Hmax].
          apply gtb_false in Hgt. by etrans. }
  destruct (Hfold x0) as ([->|?] & Hle & Hmax).
  - split; [left|]. intros x [->|?]%elem_of_cons; [done | by apply Hmax].
  - split; [by right|]. intros x [->|?]%elem_of_cons; [done | by apply Hmax].
Qed.

Lemma foldl_app_elem {A B} (f : list A → B → list A) (items : list B)
    (P : A → Prop) :
  (∀ l y, y ∈ items → ∃ more, f l y = l ++ more ∧ ∀ x, x ∈ more → P x) →
  ∀ l x, x ∈ foldl f l items → x ∈ l ∨ P x.
Proof.
  induction items as [|y items IH]; intros Hf l x; cbn; [by left|].
  intros Hx. apply IH in Hx.
  - destruct Hx as [Hx|?]; [|by right].
    destruct (Hf l y) as (more & Hmore & HP); [left|].
    rewrite Hmore in Hx. apply elem_of_app in Hx as [?|?]; [by left|].
    right. by apply HP.
  - intros l' y' Hy'. apply Hf. by right.
Qed.

Lemma foldl_app_length {A B} (f : list A → B → list A) (items : list B) :
  (∀ l y, length (f l y) ≤ S (length l)) →
  ∀ l, length (foldl f l items) ≤ length l + length items.
Proof.
  intros Hf. induction items as [|y items IH]; intros l; cbn; [lia|].
  etrans; [apply IH|]. specialize (Hf l y). lia.
Qed.

(** A string with a colon in it differs from any string without one. *)
Lemma colon_free (S t u : string) :
  ":"%char ∉ String.list_ascii_of_string S → t +:+ String ":" u ≠ S.
Proof.
  revert S. induction t as [|c t IH]; intros S Hfree; cbn.
  - destruct S as [|c' S]; [done|]. intros [= <- _]. apply Hfree. left.
  - destruct S as [|c' S]; [done|]. intros [= <- HS]. revert HS. apply IH.
    intros Hin. apply Hfree. by right.
Qed.

(** Opens a returned list of recommendations: the largest weight [m] and
    the fold over the analysed tickers. *)
Ltac recommendations_steps H :=
  unfold generate_recommendations in H;
  destruct (Py.max _) as [?m|] eqn:?Hmax in H; [|discriminate H];
  cbn [mbind Py.res_bind mret Py.res_ret] in H;
  injection H as <-.

Lemma stock_step_appends_one (l : list string) (item : string * analysis) :
  ∃ more,
    (let '(ticker, analysis) := item in
     if Py.gtb (optimal_weight analysis) (Py.dec 3 10) then
       l ++ [ticker +:+ ": High allocation recommended ("
               +:+ Py.percent_1f (optimal_weight analysis)
               +:+ "%). Strong performer."]
     else if Py.ltb (optimal_weight analysis) (Py.dec 5 100) then
       l ++ [ticker +:+ ": Low allocation ("
               +:+ Py.percent_1f (optimal_weight analysis)
               +:+ "%). Consider alternatives."]
     else l) = l ++ more ∧
    length more ≤ 1 ∧
    ∀ x, x ∈ more → ∃ t u, x = t +:+ String ":" u.
Proof.
  destruct item as [ticker a].
  destruct (Py.gtb _ _); [|destruct (Py.ltb _ _)].
  - eexists. split; [done|]. split; [done|].
    intros x ->%list_elem_of_singleton. by eexists _, _.
  - eexists. split; [done|]. split; [done|].
    intros x ->%list_elem_of_singleton. by eexists _, _.
  - exists []. split; [by rewrite app_nil_r|]. split; [cbn; lia|].
    by intros x ?%elem_of_nil.
Qed.

(** X16: a returned list holds the Sharpe sentence, at most one volatility
    sentence, at most one concentration sentence and at most one sentence
    per analysed ticker. *)
Theorem recommendations_count (o : optimization) (sa : Py.dict analysis)
    (l : list string) :
  generate_recommendations o sa = Py.Ok l →
  1 ≤ length l ≤ 3 + length sa.
Proof.
  intros H. recommendations_steps H.
  match goal with
  | |- context [foldl ?f ?l0 sa] =>
      assert (1 ≤ length l0 ≤ 3) as Hbase;
      [| pose proof (foldl_app_length f sa) as Hupper;
         destruct (foldl_app_only f sa) with (l := l0) as [more Hmore] ]
  end.
  - destruct (Py.gtb (sharpe_ratio o) _);
      [|destruct (Py.gtb (sharpe_ratio o) _)];
      (destruct (Py.gtb (annual_volatility o) _);
        [|destruct (Py.ltb (annual_volatility o) _)]);
      destruct (Py.gtb m _); cbn; lia.
  - intros l' item. destruct (stock_step_appends_one l' item) as (? & ? & _).
    eauto.
  - rewrite Hmore at 1. rewrite length_app.
    split; [lia|]. etrans; [apply Hupper|lia].
    intros l' item. destruct (stock_step_appends_one l' item) as (m' & -> & ? & _).
    rewrite length_app. lia.
Qed.

(** Three analysed tickers. *)
Lemma recommendations_count_witness :
  ∃ l,
    generate_recommendations Faults.optimum Faults.analysed = Py.Ok l ∧
    1 ≤ length l ≤ 3 + 3.
Proof.
  eexists. split; [vm_compute; reflexivity|].
  apply (recommendations_count Faults.optimum Faults.analysed). reflexivity.
Defined.

Lemma volatility_sentences (o : optimization) (sa : Py.dict analysis)
    (l : list string) :
  generate_recommendations o sa = Py.Ok l →
  (volatility_high ∈ l ↔ (Py.of_Z 25 < annual_volatility o)%Qc) ∧
  (volatility_low ∈ l ↔ (annual_volatility o < Py.of_Z 15)%Qc).
Proof.
  intros H. recommendations_steps H.
  rewrite <- gtb_true, <- ltb_true.
  assert (Py.gtb (annual_volatility o) (Py.of_Z 25) = true →
          Py.ltb (annual_volatility o) (Py.of_Z 15) = false) as Hexcl.
  { rewrite gtb_true. intros H25. apply bool_decide_eq_false.
    intros H15. apply (Qclt_not_le _ _ H25). apply Qclt_le_weak.
    eapply Qclt_trans; [exact H15 | by vm_compute]. }
  match goal with
  | |- context [foldl ?f ?l0 sa] =>
      pose proof (foldl_app_keeps f sa l0) as Hkeeps;
      pose proof (foldl_app_elem f sa (λ x, ∃ t u, x = t +:+ String ":" u))
        as Helem;
      set (base := l0) in *; set (step := f) in *
  end.
  assert (∀ l y, ∃ more, step l y = l ++ more) as Hstep.
  { intros l' item. destruct (stock_step_appends_one l' item) as (? & ? & _).
    eauto. }
  assert (∀ x, ":"%char ∉ String.list_ascii_of_string x →
               x ∈ foldl step base sa → x ∈ base) as Hfree.
  { intros x Hx Hin. apply Helem in Hin.
    - destruct Hin as [?|(t & u & ->)]; [done|].
      by apply (colon_free _ t u) in Hx.
    - intros l' item _.
      destruct (stock_step_appends_one l' item) as (? & ? & _ & ?). eauto. }
  assert (":"%char ∉ String.list_ascii_of_string volatility_high) as Hhigh.
  { apply (bool_decide_unpack _). by vm_compute. }
  assert (":"%char ∉ String.list_ascii_of_string volatility_low) as Hlow.
  { apply (bool_decide_unpack _). by vm_compute. }
  split; (split; [intros Hin%Hfree; [|done] | intros Hcond; apply Hkeeps; [done|]]);
    subst base; revert Hexcl;
    (destruct (Py.gtb (sharpe_ratio o) _);
      [|destruct (Py.gtb (sharpe_ratio o) _)]);
    (destruct (Py.gtb (annual_volatility o) _);
      destruct (Py.ltb (annual_volatility o) _));
    destruct (Py.gtb m _); intros Hexcl;
    try done; try (by specialize (Hexcl eq_refl));
    try (revert Hin; cbn [app];
         rewrite ?elem_of_cons, elem_of_nil;
         intros Hin; repeat (destruct Hin as [Hin|Hin]; [discriminate Hin|]);
         done);
    cbn [app]; rewrite ?elem_of_cons; auto.
Qed.

(** X17: when some weight exceeds 0.4, the list holds the concentration
    sentence, and the percentage it quotes is that of the largest weight. *)
Theorem concentration_is_reported (o : optimization) (sa : Py.dict analysis)
    (l : list string) (x : Qc) :
  generate_recommendations o sa = Py.Ok l →
  x ∈ Py.values (optimal_weights o) →
  (Py.dec 4 10 < x)%Qc →
  ∃ m, m ∈ Py.values (optimal_weights o) ∧
       (∀ y, y ∈ Py.values (optimal_weights o) → (y ≤ m)%Qc) ∧
       concentration_sentence m ∈ l.
Proof.
  intros H Hx Hbig. recommendations_steps H.
  destruct (max_is_greatest _ _ Hmax) as [Hin Hgreatest].
  exists m. split; [done|]. split; [done|].
  assert (Py.gtb m (Py.dec 4 10) = true) as ->.
  { apply gtb_true. eapply Qclt_le_trans; [exact Hbig | by apply Hgreatest]. }
  apply foldl_app_keeps.
  { intros l' item. destruct (stock_step_appends_one l' item) as (? & ? & _).
    eauto. }
  apply elem_of_app. right. by left.
Qed.

(** A largest weight of 0.5865: the sentence quotes 58.7 %, the one
    decimal of the float product [58.650000000000006]. *)
Lemma concentration_is_reported_witness :
  ∃ l,
    generate_recommendations Faults.uneven Faults.uneven_analysed = Py.Ok l ∧
    (∃ m, m ∈ Py.values (optimal_weights Faults.uneven) ∧
          (∀ y, y ∈ Py.values (optimal_weights Faults.uneven) → (y ≤ m)%Qc) ∧
          concentration_sentence m ∈ l) ∧
    "Portfolio is concentrated in one asset (58.7%). Consider diversifying."
    ∈ l.
Proof.
  eexists. split; [vm_compute; reflexivity|].
  pose proof (concentration_is_reported Faults.uneven Faults.uneven_analysed
                _ (Py.dec 5865 10000) eq_refl) as Hreported.
  destruct Hreported as (m & Hin & Hmax & Hsentence).
  - left.
  - by vm_compute.
  - split; [by exists m|].
    apply elem_of_cons in Hin as [->|Hin]; [exact Hsentence|].
    apply list_elem_of_singleton in Hin as ->.
    specialize (Hmax (Py.dec 5865 10000)). exfalso.
    assert (Py.dec 5865 10000 ≤ Py.dec 4135 10000)%Qc as Hle
      by (apply Hmax; left).
    by vm_compute in Hle.
Defined.

(** X18: every analysed ticker weighted above 0.3 gets the high-allocation
    sentence and every one weighted below 0.05 the low-allocation sentence,
    each quoting the ticker and its weight. *)
Theorem allocation_sentences (o : optimization) (sa : Py.dict analysis)
    (l : list string) (ticker : string) (a : analysis) :
  generate_recommendations o sa = Py.Ok l →
  (ticker, a) ∈ sa →
  ((Py.dec 3 10 < optimal_weight a)%Qc →
   high_allocation_sentence ticker (optimal_weight a) ∈ l) ∧
  ((optimal_weight a < Py.dec 5 100)%Qc →
   low_allocation_sentence ticker (optimal_weight a) ∈ l).
Proof.
  intros H Hin. recommendations_steps H.
  split; intros Hw;
    (eapply foldl_app_adds; [|exact Hin|]);
    try (intros l' item;
         destruct (stock_step_appends_one l' item) as (? & ? & _); by eauto);
    intros l'; cbn.
  - apply gtb_true in Hw. rewrite Hw. apply elem_of_app. right. by left.
  - assert (Py.gtb (optimal_weight a) (Py.dec 3 10) = false) as ->.
    { apply gtb_false. apply Qclt_le_weak.
      eapply Qclt_trans; [exact Hw | by vm_compute]. }
    apply ltb_true in Hw. rewrite Hw. apply elem_of_app. right. by left.
Qed.

(** A weight of 0.4135, quoted as 41.3 % (the float product is
    [41.349999999999994]), and a weight of 0. *)
Lemma allocation_sentences_witness :
  (∃ l,
     generate_recommendations Faults.uneven Faults.uneven_analysed = Py.Ok l ∧
     "MSFT: High allocation recommended (41.3%). Strong performer." ∈ l) ∧
  (∃ l,
     generate_recommendations Faults.optimum Faults.analysed = Py.Ok l ∧
     "AAPL: High allocation recommended (60.0%). Strong performer." ∈ l ∧
     "TSLA: Low allocation (0.0%). Consider alternatives." ∈ l).
Proof.
  split.
  - eexists. split; [vm_compute; reflexivity|].
    apply (allocation_sentences Faults.uneven Faults.uneven_analysed _ "MSFT"
             (Faults.entry (Py.dec 4135 10000)) eq_refl).
    + right. left.
    + by vm_compute.
  - eexists. split; [vm_compute; reflexivity|]. split.
    + apply (allocation_sentences Faults.optimum Faults.analysed _ "AAPL"
               (Faults.entry (Py.dec 6 10)) eq_refl).
      * left.
      * by vm_compute.
    + apply (allocation_sentences Faults.optimum Faults.analysed _ "TSLA"
               (Faults.entry 0%Qc) eq_refl).
      * right. right. left.
      * by vm_compute.
Defined.

(** X19: in a prediction the advice on volatility agrees with the risk
    level, except at a volatility of exactly 15: the high-volatility
    sentence is given exactly when the level is "High", the low-volatility
    sentence exactly when the level is "Low" and the volatility is not 15. *)
Theorem volatility_advice_matches_risk_level (w : World)
    (tickers : list string) (A : Qc) (s s' : state) (p : prediction) :
  predict_portfolio_performance w tickers A s = (Ret (Success p), s') →
  (volatility_high ∈ recommendations p
   ↔ risk_level (risk_assessment p) = "High") ∧
  (volatility_low ∈ recommendations p
   ↔ risk_level (risk_assessment p) = "Low" ∧
     annual_volatility (portfolio_optimization p) ≠ Py.of_Z 15).
Proof.
  intros H. predict_steps H. cbn.
  destruct (volatility_sentences _ _ _ Hrecs) as [-> ->].
  rewrite risk_level_high, risk_level_low. split; [done|].
  split.
  - intros Hlt. split; [by apply Qclt_le_weak|].
    intros Heq. rewrite Heq in Hlt. by apply Qclt_not_eq in Hlt.
  - intros [Hle Hne]. by apply Qcle_lt_or_eq in Hle as [?|?].
Qed.

(** At a volatility of exactly 15 the level is "Low" and no volatility sentence is given. *)
Lemma volatility_advice_matches_risk_level_witness :
  ∃ p s',
    predict_portfolio_performance Faults.borderline Demo.request
      (Py.of_Z 5000) initial = (Ret (Success p), s') ∧
    annual_volatility (portfolio_optimization p) = Py.of_Z 15 ∧
    risk_level (risk_assessment p) = "Low" ∧
    (volatility_low ∉ recommendations p) ∧
    (volatility_high ∉ recommendations p).
Proof.
  eexists _, _. split; [vm_compute; reflexivity|].
  destruct (volatility_advice_matches_risk_level Faults.borderline
              Demo.request (Py.of_Z 5000) initial _ _ eq_refl)
    as [Hhigh Hlow].
  split; [by apply Qc_is_canon|]. split; [reflexivity|]. split.
  - intros Hin. apply Hlow in Hin as [_ Hne]. apply Hne.
    by apply Qc_is_canon.
  - intros Hin. apply Hhigh in Hin. vm_compute in Hin. discriminate Hin.
Defined.

(** ** More on the per-ticker loop *)


Lemma keys_set_fresh {V} (d : Py.dict V) (k : string) (v : V) :
  k ∉ Py.keys d → Py.keys (Py.set d k v) = Py.keys d ++ [k].
Proof.
  unfold Py.keys. induction d as [|[k' v'] d IH]; cbn; [done|].
  intros Hfresh. apply not_elem_of_cons in Hfresh as [Hne Hfresh].
  destruct (String.eqb_spec k' k) as [->|_]; [done|].
  cbn. by rewrite IH.
Qed.

Section entries.
Context (w : World) (data : Pandas.DataFrame) (o : optimization) (A : Qc).

Local Abbreviation entry_of ticker a :=
  (∃ col price,
     Pandas.column data ticker = Some col ∧
     last (Pandas.dropna col) = Some price ∧
     current_price a = Py.round2 price ∧
     optimal_weight a = default 0%Qc (Py.get (optimal_weights o) ticker) ∧
     recommended_allocation a = Py.round2 (Py.mul A (optimal_weight a))).


Lemma loop_raises (tickers : list string) (acc : Py.dict analysis)
    (e : Py.exn) :
  stock_analysis_loop w data o A tickers acc = Py.Err e ↔
  e = Py.IndexError "single positional indexer is out-of-bounds" ∧
  ∃ t col, t ∈ tickers ∧ Pandas.column data t = Some col ∧
           Pandas.dropna col = [].
Proof.
  revert acc. induction tickers as [|t0 tickers IH]; intros acc; cbn.
  { split; [done|]. by intros (_ & t & col & ?%elem_of_nil & _). }
  destruct (Pandas.column data t0) as [col|] eqn:Hcol.
  - unfold Pandas.iloc_last.
    destruct (last (Pandas.dropna col)) as [price|] eqn:Hlast; cbn.
    + rewrite IH. split.
      * intros (-> & t & col' & ? & ? & ?). split; [done|].
        exists t, col'. split; [by right | done].
      * intros (-> & t & col' & [->|?]%elem_of_cons & Hcol' & Hempty).
        -- rewrite Hcol in Hcol'. injection Hcol' as <-.
           by rewrite Hempty in Hlast.
        -- split; [done|]. by exists t, col'.
    + apply last_None in Hlast. split.
      * intros [= <-]. split; [done|]. exists t0, col. split; [left|done].
      * by intros (-> & _).
  - rewrite IH. split.
    + intros (-> & t & col' & ? & ? & ?). split; [done|].
      exists t, col'. split; [by right | done].
    + intros (-> & t & col' & [->|?]%elem_of_cons & Hcol' & Hempty).
      * by rewrite Hcol in Hcol'.
      * split; [done|]. by exists t, col'.
Qed.

Lemma loop_order (tickers : list string) (acc sa : Py.dict analysis) :
  NoDup tickers →
  (∀ t, t ∈ tickers → t ∉ Py.keys acc) →
  stock_analysis_loop w data o A tickers acc = Py.Ok sa →
  Py.keys sa
  = Py.keys acc ++ filter (λ t, t ∈ Py.keys (Pandas.columns data)) tickers.
Proof.
  revert acc. induction tickers as [|t0 tickers IH]; intros acc;
    cbn [stock_analysis_loop].
  { intros _ _ [= ->]. by rewrite app_nil_r. }
  intros [Hfresh0 Hnodup]%NoDup_cons Hfresh.
  destruct (Pandas.column data t0) as [col|] eqn:Hcol.
  - rewrite filter_cons_True by (apply column_present; eauto).
    destruct (Pandas.iloc_last _) as [price|]; [cbn|done].
    intros Hloop. apply IH in Hloop; [|done|].
    + rewrite Hloop, keys_set_fresh, <- app_assoc; [done|].
      apply Hfresh. left.
    + intros t Ht [Hin| ->]%keys_set; [|done].
      revert Hin. apply Hfresh. by right.
  - rewrite filter_cons_False.
    2: { rewrite <- column_present, Hcol. by intros [? ?]. }
    apply IH; [done|]. intros t Ht. apply Hfresh. by right.
Qed.

End entries.



(** X14: for distinct requested tickers, [stock_analysis] lists the tickers
    that are columns of the fetched table in the order of the request. *)
Theorem stock_analysis_keeps_request_order (w : World)
    (tickers : list string) (A : Qc) (s s' : state) (p : prediction) :
  NoDup tickers →
  predict_portfolio_performance w tickers A s = (Ret (Success p), s') →
  ∃ data start_date end_date s1,
    fetch_portfolio_data w tickers start_date end_date s1 = (Ret data, s') ∧
    Py.keys (stock_analysis p)
    = filter (λ t, t ∈ Py.keys (Pandas.columns data)) tickers.
Proof.
  intros Hnodup H. predict_steps H. cbn.
  eexists _, _, _, _. split; [exact Hfetch|].
  eapply loop_order in Hloop; [exact Hloop|done|].
  by intros t _ ?%elem_of_nil.
Qed.

(** The demo request, [ZZZZ] left out. *)
Lemma stock_analysis_keeps_request_order_witness :
  ∃ p s',
    predict_portfolio_performance Demo.market Demo.request (Py.of_Z 5000)
      initial = (Ret (Success p), s') ∧
    Py.keys (stock_analysis p) = ["AAPL"; "MSFT"].
Proof.
  eexists _, _. split; [vm_compute; reflexivity|].
  assert (NoDup Demo.request) as Hnodup.
  { apply (bool_decide_unpack _). by vm_compute. }
  destruct (stock_analysis_keeps_request_order Demo.market Demo.request
              (Py.of_Z 5000) initial _ _ Hnodup eq_refl)
    as (data & sd & ed & s1 & Hfetch & Hkeys).
  injection Hfetch as <- _. exact Hkeys.
Defined.

(** ** How [optimize_portfolio] ends *)

(** The four ways: the provider fails; the table is empty; the optimiser
    raises; a result. *)
Lemma optimize_inv (w : World) (tickers : list string)
    (start_date end_date start_date' end_date' : option string)
    (s s1 s' : state) (r : outcome (result optimization)) :
  default_period w start_date end_date s = (Ret (start_date', end_date'), s1) →
  optimize_portfolio w tickers start_date end_date s = (r, s') →
  let call := (tickers, start_date', end_date') in
  (∃ msg, download w (length (fetch_log s1)) call = inl msg ∧
          r = SysExit 1 ∧
          s' = written (error_object ("Failed to fetch data: " +:+ msg))
                 (requested call s1)) ∨
  (∃ data, download w (length (fetch_log s1)) call = inr data ∧
           s' = requested call s1 ∧
           ((Pandas.empty data = true ∧
             r = Ret (ErrorRecord "No data available for the given tickers")) ∨
            (Pandas.empty data = false ∧
             ((∃ o, r = Ret (Success o)) ∨
              (∃ e, r = Raise e ∧
                 (mean_historical_return w data = Py.Err e ∨
                  ∃ mu, mean_historical_return w data = Py.Ok mu ∧
                    (sample_cov w data = Py.Err e ∨
                     ∃ S, sample_cov w data = Py.Ok S ∧
                       (max_sharpe w mu S = Py.Err e ∨
                        ∃ weights, max_sharpe w mu S = Py.Ok weights ∧
                          portfolio_performance w mu S weights = Py.Err e)))))))).
Proof.
  intros Hperiod. unfold optimize_portfolio, mbind, M_bind. rewrite Hperiod.
  cbn zeta.
  destruct (download w (length (fetch_log s1)) (tickers, start_date', end_date'))
    as [msg|data] eqn:Hdown.
  - rewrite (fetch_fails_download _ _ _ _ _ _ Hdown). intros [= <- <-].
    left. by exists msg.
  - rewrite (fetch_returns_download _ _ _ _ _ _ Hdown).
    intros H. right. exists data. split; [done|].
    destruct (Pandas.empty data).
    { injection H as <- <-. split; [done|]. by left. }
    unfold lift in H.
    destruct (mean_historical_return w data) as [mu|e] eqn:Hmu.
    2: { injection H as <- <-. split; [done|]. right. split; [done|].
         right. exists e. split; [done|]. by left. }
    destruct (sample_cov w data) as [S|e] eqn:HS.
    2: { injection H as <- <-. split; [done|]. right. split; [done|].
         right. exists e. split; [done|]. right. exists mu. split; [done|].
         by left. }
    destruct (max_sharpe w mu S) as [weights|e] eqn:Hw.
    2: { injection H as <- <-. split; [done|]. right. split; [done|].
         right. exists e. split; [done|]. right. exists mu. split; [done|].
         right. exists S. split; [done|]. by left. }
    destruct (portfolio_performance w mu S weights) as [perf|e] eqn:Hperf.
    2: { injection H as <- <-. split; [done|]. right. split; [done|].
         right. exists e. split; [done|]. right. exists mu. split; [done|].
         right. exists S. split; [done|]. right. by exists weights. }
    injection H as <- <-. split; [done|]. right. split; [done|].
    left. by eexists.
Qed.

Lemma default_period_total (w : World) (start_date end_date : option string)
    (s : state) :
  ∃ start_date' end_date' s1,
    default_period w start_date end_date s
    = (Ret (start_date', end_date'), s1) ∧
    stdout s1 = stdout s ∧ fetch_log s1 = fetch_log s.
Proof.
  unfold default_period. destruct (falsy start_date); by eexists _, _, _.
Qed.

(** X7: [optimize_portfolio] returns an error record only when the table
    fetched for the period is empty, and the record then carries the one
    fixed message. *)
Theorem error_record_only_for_empty_table (w : World)
    (tickers : list string) (start_date end_date : option string)
    (s s' : state) (msg : string) :
  optimize_portfolio w tickers start_date end_date s
  = (Ret (ErrorRecord msg), s') →
  msg = "No data available for the given tickers" ∧
  ∃ start_date' end_date' s1 data,
    default_period w start_date end_date s
    = (Ret (start_date', end_date'), s1) ∧
    download w (length (fetch_log s1)) (tickers, start_date', end_date')
    = inr data ∧
    Pandas.empty data = true.
Proof.
  intros H.
  destruct (default_period_total w start_date end_date s)
    as (sd & ed & s1 & Hperiod & _).
  destruct (optimize_inv _ _ _ _ _ _ _ _ _ _ Hperiod H)
    as [(? & _ & [=] & _)|(data & Hdown & _ & [[Hempty [= ->]]|[_ Hrest]])].
  - split; [done|]. by exists sd, ed, s1, data.
  - destruct Hrest as [[o [=]]|(e & [=] & _)].
Qed.

(** The error record for [ZZZZ] comes with an empty table. *)
Lemma error_record_only_for_empty_table_witness :
  ∃ msg s',
    optimize_portfolio Demo.market ["ZZZZ"] None None initial
    = (Ret (ErrorRecord msg), s') ∧
    msg = "No data available for the given tickers" ∧
    ∃ start_date' end_date' s1 data,
      default_period Demo.market None None initial
      = (Ret (start_date', end_date'), s1) ∧
      download Demo.market (length (fetch_log s1))
        (["ZZZZ"], start_date', end_date') = inr data ∧
      Pandas.empty data = true.
Proof.
  eexists _, _. split; [vm_compute; reflexivity|].
  apply (error_record_only_for_empty_table Demo.market ["ZZZZ"] None None
           initial _ _ eq_refl).
Defined.

(** X8: an exception that leaves [optimize_portfolio] was raised by one of
    the four optimiser calls on a table that is not empty; nothing has
    been written to standard output. *)
Theorem only_optimiser_exceptions_escape (w : World)
    (tickers : list string) (start_date end_date : option string)
    (s s' : state) (e : Py.exn) :
  optimize_portfolio w tickers start_date end_date s = (Raise e, s') →
  stdout s' = stdout s ∧
  ∃ data,
    Pandas.empty data = false ∧
    (mean_historical_return w data = Py.Err e ∨
     ∃ mu, mean_historical_return w data = Py.Ok mu ∧
       (sample_cov w data = Py.Err e ∨
        ∃ S, sample_cov w data = Py.Ok S ∧
          (max_sharpe w mu S = Py.Err e ∨
           ∃ weights, max_sharpe w mu S = Py.Ok weights ∧
             portfolio_performance w mu S weights = Py.Err e))).
Proof.
  intros H.
  destruct (default_period_total w start_date end_date s)
    as (sd & ed & s1 & Hperiod & Hout & _).
  destruct (optimize_inv _ _ _ _ _ _ _ _ _ _ Hperiod H)
    as [(? & _ & [=] & _)|(data & Hdown & -> & [[_ [=]]|[Hempty Hrest]])].
  destruct Hrest as [[o [=]]|(e' & [= <-] & Hlib)].
  split; [done|]. by exists data.
Qed.

(** A solver that finds no portfolio ends the optimise command with a traceback. *)
Lemma only_optimiser_exceptions_escape_witness :
  ∃ s',
    optimize_portfolio Faults.infeasible ["AAPL"; "MSFT"] None None initial
    = (Raise (Py.LibraryError "no asset beats the risk-free rate"), s') ∧
    stdout s' = [] ∧
    run Faults.infeasible [Demo.script; "optimize"; "AAPL,MSFT"]
    = (Uncaught (Py.LibraryError "no asset beats the risk-free rate"), []).
Proof.
  eexists. split; [vm_compute; reflexivity|].
  split; [|reflexivity].
  apply (only_optimiser_exceptions_escape Faults.infeasible ["AAPL"; "MSFT"]
           None None initial _
           (Py.LibraryError "no asset beats the risk-free rate")).
  reflexivity.
Defined.

Lemma error_record_means_no_data (w : World) (tickers : list string)
    (start_date end_date : option string) (s s' : state) (msg : string) :
  optimize_portfolio w tickers start_date end_date s
  = (Ret (ErrorRecord msg), s') →
  msg = "No data available for the given tickers".
Proof.
  intros H.
  destruct (default_period_total w start_date end_date s)
    as (sd & ed & s1 & Hperiod & _).
  destruct (optimize_inv _ _ _ _ _ _ _ _ _ _ Hperiod H)
    as [(? & _ & [=] & _)|(data & _ & _ & [[_ [= ->]]|[_ Hrest]])]; [done|].
  destruct Hrest as [[o [=]]|(e & [=] & _)].
Qed.

Lemma optimize_state (w : World) (tickers : list string)
    (start_date end_date start_date' end_date' : option string)
    (s s1 s' : state) (r : outcome (result optimization)) :
  default_period w start_date end_date s = (Ret (start_date', end_date'), s1) →
  optimize_portfolio w tickers start_date end_date s = (r, s') →
  clock_reads s' = clock_reads s1 ∧
  fetch_log s' = fetch_log s1 ++ [(tickers, start_date', end_date')].
Proof.
  intros Hperiod H.
  destruct (optimize_inv _ _ _ _ _ _ _ _ _ _ Hperiod H)
    as [(? & _ & _ & ->)|(? & _ & -> & _)]; done.
Qed.

(** X9: with a start date, [optimize_portfolio] does not read the clock: it
    requests the period as given, end date or none, and a result records
    it.  Without a start date, or with the empty string for one, the end
    date that was passed is ignored. *)
Theorem given_period_is_used (w : World) (tickers : list string)
    (end_date : option string) (s : state) :
  (∀ start_date r s',
     start_date ≠ "" →
     optimize_portfolio w tickers (Some start_date) end_date s = (r, s') →
     clock_reads s' = clock_reads s ∧
     fetch_log s' = fetch_log s ++ [(tickers, Some start_date, end_date)] ∧
     ∀ o, r = Ret (Success o) →
          analysis_period o
          = {| start := Some start_date; end_ := end_date |}) ∧
  (∀ other,
     optimize_portfolio w tickers None end_date s
     = optimize_portfolio w tickers None other s ∧
     optimize_portfolio w tickers (Some "") end_date s
     = optimize_portfolio w tickers None other s).
Proof.
  split.
  - intros start_date r s' Hne H.
    pose proof (default_period_given w start_date end_date s Hne) as Hperiod.
    destruct (optimize_state _ _ _ _ _ _ _ _ _ _ Hperiod H) as [Hclock Hlog].
    destruct (optimize_uses_period _ _ _ _ _ _ _ _ _ _ Hperiod H) as [_ Hrange].
    done.
  - intros other. split; reflexivity.
Qed.

(** A start date without an end date. *)
Lemma given_period_is_used_witness :
  ∃ o s',
    optimize_portfolio Demo.market ["AAPL"; "MSFT"] (Some "2020-01-01") None
      initial = (Ret (Success o), s') ∧
    clock_reads s' = 0 ∧
    fetch_log s' = [(["AAPL"; "MSFT"], Some "2020-01-01", None)] ∧
    analysis_period o = {| start := Some "2020-01-01"; end_ := None |}.
Proof.
  eexists _, _. split; [vm_compute; reflexivity|].
  destruct (given_period_is_used Demo.market ["AAPL"; "MSFT"] None initial)
    as [Hgiven _].
  destruct (Hgiven "2020-01-01" _ _ ltac:(discriminate) eq_refl)
    as (Hclock & Hlog & Hrange).
  split; [exact Hclock|]. split; [exact Hlog|]. exact (Hrange _ eq_refl).
Defined.

(** X10: a prediction reads the clock twice, whatever follows, and every
    request it sends is for the period it computed from those readings;
    it sends two of them for a result, and a single one when the
    optimisation gave an error record, which it passes on. *)
Theorem prediction_requests (w : World) (tickers : list string) (A : Qc)
    (s s' : state) (r : outcome (result prediction)) :
  predict_portfolio_performance w tickers A s = (r, s') →
  let request :=
    (tickers,
     Some (Datetime.strftime_ymd
             (Datetime.minus_days (now w (S (clock_reads s))) 730)),
     Some (Datetime.strftime_ymd (now w (clock_reads s)))) in
  clock_reads s' = 2 + clock_reads s ∧
  (fetch_log s' = fetch_log s ++ [request] ∨
   fetch_log s' = fetch_log s ++ [request; request]) ∧
  (∀ p, r = Ret (Success p) →
        fetch_log s' = fetch_log s ++ [request; request] ∧
        analysis_period (portfolio_optimization p)
        = {| start := request.1.2; end_ := request.2 |}) ∧
  (∀ msg, r = Ret (ErrorRecord msg) →
          fetch_log s' = fetch_log s ++ [request] ∧
          msg = "No data available for the given tickers").
Proof.
  intros H request. revert H.
  unfold predict_portfolio_performance, mbind, M_bind.
  cbn [datetime_now ticked clock_reads].
  destruct (optimize_portfolio _ _ _ _ _) as [r1 s1] eqn:Hopt.
  pose proof (default_period_given w _
                (Some (Datetime.strftime_ymd (now w (clock_reads s))))
                (ticked (ticked s))
                (strftime_ymd_nonempty
                   (Datetime.minus_days (now w (S (clock_reads s))) 730)))
    as Hperiod.
  destruct (optimize_state _ _ _ _ _ _ _ _ _ _ Hperiod Hopt) as [Hclock1 Hlog1].
  destruct (optimize_uses_period _ _ _ _ _ _ _ _ _ _ Hperiod Hopt) as [_ Hrange].
  cbn [ticked fetch_log clock_reads] in Hclock1, Hlog1.
  unfold mret, M_ret.
  destruct r1 as [[msg|o]|e|code].
  - intros [= <- <-]. split_and!; [done|by left|by intros ? [=]|].
    intros ? [= <-]. split; [done|].
    by destruct (error_record_means_no_data _ _ _ _ _ _ _ Hopt).
  - specialize (Hrange o eq_refl).
    destruct (fetch_portfolio_data _ _ _ _ _) as [r2 s2] eqn:Hfetch.
    apply fetch_logs_request in Hfetch as [Hlog2 Hclock2].
    assert (fetch_log s2 = fetch_log s ++ [request; request]) as Hlog.
    { rewrite Hlog2, Hlog1. by rewrite <- app_assoc. }
    assert (clock_reads s2 = 2 + clock_reads s) as Hclock
      by (rewrite Hclock2, Hclock1; lia).
    destruct r2 as [data| |].
    2,3: by intros [= <- <-]; split_and!; [|right|intros ? [=]|intros ? [=]].
    unfold lift.
    destruct (stock_analysis_loop _ _ _ _ _ _).
    2: by intros [= <- <-]; split_and!; [|right|intros ? [=]|intros ? [=]].
    destruct (diversification_score_of _ _).
    2: by intros [= <- <-]; split_and!; [|right|intros ? [=]|intros ? [=]].
    destruct (generate_recommendations _ _).
    2: by intros [= <- <-]; split_and!; [|right|intros ? [=]|intros ? [=]].
    intros [= <- <-]. split_and!; [done|by right| |by intros ? [=]].
    intros ? [= <-]. split; [done|]. cbn. by rewrite Hrange.
  - by intros [= <- <-]; split_and!; [|left|intros ? [=]|intros ? [=]].
  - by intros [= <- <-]; split_and!; [|left|intros ? [=]|intros ? [=]].
Qed.

(** A prediction in the demo market: two readings, two equal requests. *)
Lemma prediction_requests_witness :
  ∃ p s',
    predict_portfolio_performance Demo.market Demo.request (Py.of_Z 5000)
      initial = (Ret (Success p), s') ∧
    clock_reads s' = 2 ∧
    fetch_log s'
    = [(Demo.request, Some "2024-11-03", Some "2026-11-03");
       (Demo.request, Some "2024-11-03", Some "2026-11-03")].
Proof.
  eexists _, _. split; [vm_compute; reflexivity|].
  destruct (prediction_requests Demo.market Demo.request (Py.of_Z 5000)
              initial _ _ eq_refl) as (Hclock & _ & Hresult & _).
  split; [exact Hclock|]. exact (proj1 (Hresult _ eq_refl)).
Defined.

(** ** More on the command line *)

Lemma prediction_error_means_no_data (w : World) (tickers : list string)
    (A : Qc) (s s' : state) (msg : string) :
  predict_portfolio_performance w tickers A s = (Ret (ErrorRecord msg), s') →
  msg = "No data available for the given tickers".
Proof.
  unfold predict_portfolio_performance, mbind, M_bind. cbn [datetime_now].
  destruct (optimize_portfolio _ _ _ _ _) as [[[msg'|o]|e|c] s1] eqn:Hopt;
    try done.
  - intros [= <- <-]. by eapply error_record_means_no_data.
  - destruct (fetch_portfolio_data _ _ _ _ _) as [[data| |] s2]; try done.
    unfold lift.
    destruct (stock_analysis_loop _ _ _ _ _ _); [|done].
    destruct (diversification_score_of _ _); [|done].
    by destruct (generate_recommendations _ _).
Qed.

(** X2: when the script ends with status 0, the object it printed has an
    "error" field only if it is the record for an empty price table; every
    other error is reported with status 1 or by a traceback. *)
Theorem status_0_error_is_no_data (w : World) (argv : list string)
    (j : Py.json) :
  run w argv = (Exited 0, [j]) →
  Py.has_field "error" j = true →
  j = error_object "No data available for the given tickers".
Proof.
  unfold run, main.
  case_bool_decide; [by cbn; intros [=]|].
  unfold mbind, M_bind, lift.
  destruct (Py.index argv 1) as [command|]; [|by cbn; intros [=]].
  case_bool_decide.
  { destruct (Py.index argv 2) as [arg|]; [|by cbn; intros [=]].
    destruct (optimize_portfolio _ _ _ _ _) as [[r| |] s] eqn:Hrun;
      pose proof (optimize_quiet_or_failed _ _ _ _ _ _ _ Hrun) as Hout;
      cbn in Hout |- *; [|by intros [=]|by destruct Hout as [-> _]; intros [=]].
    rewrite Hout. intros [= <-].
    destruct r as [msg|o]; [|done]. intros _.
    by rewrite (error_record_means_no_data _ _ _ _ _ _ _ Hrun). }
  case_bool_decide; [|by cbn; intros [=]].
  destruct (Py.index argv 2) as [arg|]; [|by cbn; intros [=]].
  set (amount := if bool_decide (3 < length argv) then _ else _).
  assert (∃ r0, amount initial = (r0, initial) ∧ ∀ c, r0 ≠ SysExit c)
    as (r0 & -> & Hr0).
  { subst amount. case_bool_decide; [|by eexists].
    destruct (Py.index argv 3) as [a|]; [|by eexists].
    destruct (float w a); by eexists. }
  destruct r0 as [investment| |];
    [|by cbn; intros [=]|by destruct (Hr0 code)].
  destruct (predict_portfolio_performance _ _ _ _) as [[r| |] s] eqn:Hrun;
    pose proof (predict_quiet_or_failed _ _ _ _ _ _ Hrun) as Hout;
    cbn in Hout |- *; [|by intros [=]|by destruct Hout as [-> _]; intros [=]].
  rewrite Hout. intros [= <-].
  destruct r as [msg|p]; [|done]. intros _.
  by rewrite (prediction_error_means_no_data _ _ _ _ _ _ Hrun).
Qed.

(** The optimise command for a ticker without prices. *)
Lemma status_0_error_is_no_data_witness :
  ∃ j,
    run Demo.market [Demo.script; "optimize"; "ZZZZ"] = (Exited 0, [j]) ∧
    Py.has_field "error" j = true ∧
    j = error_object "No data available for the given tickers".
Proof.
  eexists. split; [reflexivity|]. split; [reflexivity|].
  apply (status_0_error_is_no_data Demo.market
           [Demo.script; "optimize"; "ZZZZ"]); reflexivity.
Defined.

(** X4: a command other than [optimize] and [predict] is refused with the
    usage error and status 1 before the clock or the provider is touched,
    whatever arguments follow it. *)
Theorem unknown_command_is_refused (w : World) (script command : string)
    (rest : list string) :
  command ≠ "optimize" → command ≠ "predict" →
  main w (script :: command :: rest) initial
  = (SysExit 1,
     written (error_object "Invalid command. Use 'optimize' or 'predict'")
       initial) ∧
  run w (script :: command :: rest)
  = (Exited 1, [error_object "Invalid command. Use 'optimize' or 'predict'"]).
Proof.
  intros Hopt Hpred.
  assert (main w (script :: command :: rest) initial
          = (SysExit 1,
             written (error_object "Invalid command. Use 'optimize' or 'predict'")
               initial)) as Hmain.
  { unfold main. rewrite bool_decide_eq_false_2 by (cbn; lia).
    unfold mbind, M_bind, lift. cbn [Py.index lookup list_lookup].
    by rewrite !bool_decide_eq_false_2. }
  split; [done|]. unfold run. by rewrite Hmain.
Qed.

(** A command the script does not know. *)
Lemma unknown_command_is_refused_witness :
  run Demo.market [Demo.script; "rebalance"]
  = (Exited 1, [error_object "Invalid command. Use 'optimize' or 'predict'"]).
Proof.
  apply (unknown_command_is_refused Demo.market Demo.script "rebalance" []);
    discriminate.
Defined.

(** X5: arguments after the ticker list of [optimize], or after the amount
    of [predict], are ignored. *)
Theorem trailing_arguments_are_ignored (w : World)
    (script arg amount : string) (rest : list string) :
  main w (script :: "optimize" :: arg :: rest)
  = main w [script; "optimize"; arg] ∧
  main w (script :: "predict" :: arg :: amount :: rest)
  = main w [script; "predict"; arg; amount].
Proof.
  split.
  - unfold main. rewrite !bool_decide_eq_false_2 by (cbn; lia). reflexivity.
  - unfold main. rewrite !(bool_decide_eq_false_2 (_ < 2)) by (cbn; lia).
    rewrite !(bool_decide_eq_true_2 (3 < _)) by (cbn; lia). reflexivity.
Qed.

(** X6: an amount that [float] rejects ends [predict] with an uncaught
    [ValueError] naming it, before the clock or the provider is touched and
    with nothing written. *)
Theorem bad_amount_is_uncaught (w : World) (script arg amount : string)
    (rest : list string) :
  float w amount = None →
  main w (script :: "predict" :: arg :: amount :: rest) initial
  = (Raise (Py.ValueError
       ("could not convert string to float: '" +:+ amount +:+ "'")),
     initial) ∧
  run w (script :: "predict" :: arg :: amount :: rest)
  = (Uncaught (Py.ValueError
       ("could not convert string to float: '" +:+ amount +:+ "'")), []).
Proof.
  intros Hfloat.
  assert (main w (script :: "predict" :: arg :: amount :: rest) initial
          = (Raise (Py.ValueError
               ("could not convert string to float: '" +:+ amount +:+ "'")),
             initial)) as Hmain.
  { unfold main. rewrite (bool_decide_eq_false_2 (_ < 2)) by (cbn; lia).
    rewrite (bool_decide_eq_true_2 (3 < _)) by (cbn; lia).
    unfold mbind, M_bind, lift. cbn [Py.index lookup list_lookup].
    rewrite bool_decide_eq_false_2 by done.
    rewrite bool_decide_eq_true_2 by done.
    cbn [Py.index lookup list_lookup]. by rewrite Hfloat. }
  split; [done|]. unfold run. by rewrite Hmain.
Qed.

(** An amount that is no number. *)
Lemma bad_amount_is_uncaught_witness :
  run Demo.market [Demo.script; "predict"; "AAPL"; "lots"]
  = (Uncaught (Py.ValueError "could not convert string to float: 'lots'"), []).
Proof.
  apply (bad_amount_is_uncaught Demo.market Demo.script "AAPL" "lots" []).
  reflexivity.
Defined.

(** X3: a provider that fails at the first request ends either command
    with status 1 and the single error object that quotes its message. *)
Theorem provider_failure_is_reported (w : World) (script arg msg : string) :
  (∀ call, download w 0 call = inl msg) →
  run w [script; "optimize"; arg]
  = (Exited 1, [error_object ("Failed to fetch data: " +:+ msg)]) ∧
  run w [script; "predict"; arg]
  = (Exited 1, [error_object ("Failed to fetch data: " +:+ msg)]).
Proof.
  intros Hdown. unfold run. rewrite main_optimize, main_predict. split.
  - unfold mbind, M_bind.
    by erewrite optimize_on_fetch_failure;
      [|apply default_period_missing|apply Hdown].
  - unfold predict_portfolio_performance, mbind, M_bind. cbn [datetime_now].
    by erewrite optimize_on_fetch_failure;
      [|apply default_period_given, strftime_ymd_nonempty|apply Hdown].
Qed.

(** A prediction against a provider that cannot be reached. *)
Lemma provider_failure_is_reported_witness :
  run Faults.unreachable [Demo.script; "predict"; "AAPL"]
  = (Exited 1, [error_object "Failed to fetch data: provider unreachable"]).
Proof.
  apply (provider_failure_is_reported Faults.unreachable Demo.script "AAPL"
           "provider unreachable").
  intros call. reflexivity.
Defined.

(** ** Failures after the optimisation *)

(** X11: when the provider fails at the second request of a prediction,
    the optimisation already computed is dropped: the script writes the
    error object alone and exits with status 1. *)
Theorem failure_at_second_request_drops_result (w : World)
    (tickers : list string) (A : Qc) (s s1 : state) (o : optimization)
    (msg : string) :
  let end_date := Some (Datetime.strftime_ymd (now w (clock_reads s))) in
  let start_date :=
    Some (Datetime.strftime_ymd
            (Datetime.minus_days (now w (S (clock_reads s))) 730)) in
  optimize_portfolio w tickers start_date end_date (ticked (ticked s))
  = (Ret (Success o), s1) →
  download w (length (fetch_log s1)) (tickers, start_date, end_date)
  = inl msg →
  predict_portfolio_performance w tickers A s
  = (SysExit 1,
     written (error_object ("Failed to fetch data: " +:+ msg))
       (requested (tickers, start_date, end_date) s1)).
Proof.
  intros end_date start_date. subst end_date start_date. intros Hopt Hdown.
  unfold predict_portfolio_performance, mbind, M_bind. cbn [datetime_now].
  change (clock_reads (ticked s)) with (S (clock_reads s)). rewrite Hopt.
  by rewrite (fetch_fails_download _ _ _ _ _ _ Hdown).
Qed.

(** The provider times out at the second request. *)
Lemma failure_at_second_request_drops_result_witness :
  run Faults.flaky [Demo.script; "predict"; "AAPL,MSFT"]
  = (Exited 1, [error_object "Failed to fetch data: timed out"]) ∧
  ∃ s',
    predict_portfolio_performance Faults.flaky ["AAPL"; "MSFT"]
      (Py.of_Z 10000) initial = (SysExit 1, s') ∧
    stdout s' = [error_object "Failed to fetch data: timed out"].
Proof.
  split; [reflexivity|].
  eexists. split.
  - eapply (failure_at_second_request_drops_result Faults.flaky
              ["AAPL"; "MSFT"] (Py.of_Z 10000) initial).
    + vm_compute. reflexivity.
    + reflexivity.
  - reflexivity.
Defined.

(** X12: a requested ticker that is a column of the second table but has no
    price in it ends the prediction with an [IndexError]; nothing is
    written. *)
Theorem unpriced_ticker_ends_prediction (w : World) (tickers : list string)
    (A : Qc) (s s1 : state) (o : optimization) (data : Pandas.DataFrame)
    (ticker : string) (col : list (option Qc)) :
  let end_date := Some (Datetime.strftime_ymd (now w (clock_reads s))) in
  let start_date :=
    Some (Datetime.strftime_ymd
            (Datetime.minus_days (now w (S (clock_reads s))) 730)) in
  optimize_portfolio w tickers start_date end_date (ticked (ticked s))
  = (Ret (Success o), s1) →
  download w (length (fetch_log s1)) (tickers, start_date, end_date)
  = inr data →
  ticker ∈ tickers →
  Pandas.column data ticker = Some col →
  Pandas.dropna col = [] →
  ∃ s',
    predict_portfolio_performance w tickers A s
    = (Raise (Py.IndexError "single positional indexer is out-of-bounds"), s') ∧
    stdout s' = stdout s.
Proof.
  intros end_date start_date. subst end_date start_date.
  intros Hopt Hdown Hin Hcol Hempty.
  unfold predict_portfolio_performance, mbind, M_bind. cbn [datetime_now].
  change (clock_reads (ticked s)) with (S (clock_reads s)). rewrite Hopt.
  rewrite (fetch_returns_download _ _ _ _ _ _ Hdown).
  assert (stock_analysis_loop w data o A tickers []
          = Py.Err (Py.IndexError "single positional indexer is out-of-bounds"))
    as ->.
  { apply loop_raises. split; [done|]. by exists ticker, col. }
  eexists. split; [reflexivity|].
  apply optimize_quiet_or_failed in Hopt. cbn in Hopt |- *. done.
Qed.

(** [MSFT] is listed without a price. *)
Lemma unpriced_ticker_ends_prediction_witness :
  run Faults.gappy [Demo.script; "predict"; "AAPL,MSFT"]
  = (Uncaught (Py.IndexError "single positional indexer is out-of-bounds"), [])
  ∧ ∃ s',
    predict_portfolio_performance Faults.gappy ["AAPL"; "MSFT"]
      (Py.of_Z 10000) initial
    = (Raise (Py.IndexError "single positional indexer is out-of-bounds"), s') ∧
    stdout s' = stdout initial.
Proof.
  split; [reflexivity|].
  eapply (unpriced_ticker_ends_prediction Faults.gappy ["AAPL"; "MSFT"]
            (Py.of_Z 10000) initial _ _ Faults.gappy_prices "MSFT"
            [None; None]).
  - vm_compute. reflexivity.
  - reflexivity.
  - right. left.
  - reflexivity.
  - reflexivity.
Defined.

Lemma split_nonempty (sep : ascii) (s : string) : Py.split sep s ≠ [].
Proof.
  unfold Py.split. generalize EmptyString.
  induction s as [|c s IH]; intros cur; cbn; [done|].
  destruct (Ascii.eqb c sep); [done | apply IH].
Qed.

(** X15: a prediction for an empty ticker list never gives a result, since
    the score divides by the number of tickers; for a list read from the
    command line the division is always defined, as splitting an argument
    gives at least one ticker. *)
Theorem score_needs_a_ticker (w : World) (A : Qc) (s s' : state)
    (p : prediction) (arg : string) (weights : Py.dict Qc) :
  predict_portfolio_performance w [] A s ≠ (Ret (Success p), s') ∧
  diversification_score_of weights []
  = Py.Err (Py.ZeroDivisionError "division by zero") ∧
  ∃ score, diversification_score_of weights (Py.split "," arg) = Py.Ok score.
Proof.
  split; [by intros H; predict_steps H|]. split; [done|].
  unfold diversification_score_of, Py.int_div.
  pose proof (split_nonempty "," arg) as Hne.
  destruct (Py.split "," arg) as [|t ts]; [done|]. by eexists.
Qed.
